(** * R2RAuthProvider: credential and token lifecycle

    A shallow embedding of [core/providers/auth/r2r_auth.py].  The methods of
    [R2RAuthProvider] are embedded as computations in a state-and-exception
    monad over a world made of the wall clock and the state owned by the
    collaborators (database handlers, crypto provider, email provider).  The
    collaborators are fields of the provider record, as they are attributes of
    [self] in the source. *)

From stdpp Require Import base strings gmap list.
From Stdlib Require Import ZArith String Ascii Lia.

Local Open Scope Z_scope.
Local Open Scope string_scope.

(** ** Python values and exceptions *)

(** Instants ([datetime], always in UTC in this module) are counted in
    microseconds since the epoch, the resolution of Python's [datetime];
    the [exp] claim of a payload is read on the same scale, so that
    [datetime.fromtimestamp] is exact. *)
Definition datetime : Type := Z.

Definition timedelta_minutes (minutes : Z) : Z := minutes * 60000000.
Definition timedelta_hours (hours : Z) : Z := hours * 3600000000.
Definition timedelta_days (days : Z) : Z := days * 86400000000.

(** [datetime.min] and [datetime.max], the first microsecond of year 1 and
    the last of year 9999. *)
Definition datetime_min : Z := -62135596800000000.
Definition datetime_max : Z := 253402300799999999.

Definition in_datetime_range (t : Z) : bool :=
  ((datetime_min <=? t) && (t <=? datetime_max))%Z.

Abbreviation UUID := positive.

(** The exceptions met in the module.  [R2RException] and [HTTPException]
    are raised by the provider itself; [ValueError] is what unpacking a
    failed [split] raises, and what [datetime.fromtimestamp] raises for a
    year it cannot hold; [OverflowError] and [OSError] are the other two
    failures of [datetime] arithmetic and conversion; [AttributeError] is an
    attribute read on [None]; [Exception] stands for any other fault raised
    by a collaborator. *)
Inductive exn : Type :=
| R2RException (status_code : Z) (message : string)
| HTTPException (status_code : Z) (detail : string)
| ValueError
| AttributeError
| Exception (what : string)
| OverflowError
| OSError.

Inductive result (A : Type) : Type :=
| Return (a : A)
| Raise (e : exn).
Arguments Return {A} a.
Arguments Raise {A} e.

(** [datetime.fromtimestamp(exp, tz=timezone.utc)]: the instant itself when
    it lies in the years 1 to 9999; beyond, as CPython does on a 64-bit
    Linux, [ValueError] while the year can still be computed, [OSError]
    when [gmtime] gives up, and [OverflowError] outside the platform's
    [time_t].  The three bounds are counted in whole seconds. *)
Definition fromtimestamp (exp : Z) : result datetime :=
  let seconds := exp / 1000000 in
  if in_datetime_range exp then Return exp
  else if ((-67768040609740800 <=? seconds)
           && (seconds <=? 67768036191676799))%Z
  then Raise ValueError
  else if ((-9223372036854775808 <=? seconds)
           && (seconds <=? 9223372036854775807))%Z
  then Raise OSError
  else Raise OverflowError.

(** A [timedelta] holds at most 999999999 days, either way. *)
Definition timedelta_ok (delta : Z) : bool :=
  ((-86399999913600000000 <=? delta) && (delta <=? 86399999999999999999))%Z.

(** [t + timedelta(...)] for a delay taken from the configuration: building
    the [timedelta] and adding it both raise [OverflowError] out of range. *)
Definition datetime_add (t : datetime) (delta : Z) : result datetime :=
  if timedelta_ok delta && in_datetime_range (t + delta)
  then Return (t + delta)
  else Raise OverflowError.

#[global] Instance exn_eq_dec : EqDecision exn.
Proof. solve_decision. Defined.

(** ** The monad of method bodies *)

Definition M (W A : Type) : Type := W -> result A * W.

#[global] Instance M_ret {W} : MRet (M W) :=
  fun A (a : A) w => (Return a, w).

#[global] Instance M_bind {W} : MBind (M W) :=
  fun A B (k : A -> M W B) (c : M W A) w =>
    match c w with
    | (Return a, w') => k a w'
    | (Raise e, w') => (Raise e, w')
    end.

Definition raise {W A} (e : exn) : M W A := fun w => (Raise e, w).

(** A computation that touches nothing. *)
Definition of_result {W A} (r : result A) : M W A := fun w => (r, w).

(** [try: c except R2RException as e: h e]; any other exception goes
    through. *)
Definition try_except_R2RException {W A} (c : M W A)
    (h : Z -> string -> M W A) : M W A :=
  fun w =>
    match c w with
    | (Raise (R2RException status_code message), w') => h status_code message w'
    | r => r
    end.

(** [try: c except ValueError: h]. *)
Definition try_except_ValueError {W A} (c : M W A) (h : M W A) : M W A :=
  fun w =>
    match c w with
    | (Raise ValueError, w') => h w'
    | r => r
    end.

(** [try: c except Exception as e: h e]. *)
Definition try_except_Exception {W A} (c : M W A) (h : exn -> M W A) : M W A :=
  fun w =>
    match c w with
    | (Raise e, w') => h e w'
    | r => r
    end.

(** ** Strings *)

(** A string is truthy when it is not empty. *)
Definition truthy (s : string) : bool := negb (String.eqb s "").

(** [s.removeprefix(p)] *)
Definition removeprefix (p s : string) : string :=
  if String.prefix p s
  then String.substring (String.length p) (String.length s - String.length p)%nat s
  else s.

(** [s.split(sep, 1)] for a separator of one character: the whole string
    when [sep] does not occur, else the parts before and after its first
    occurrence. *)
Fixpoint split_1 (sep : ascii) (s : string) : list string :=
  match s with
  | EmptyString => [EmptyString]
  | String c s' =>
      if Ascii.eqb c sep then [EmptyString; s']
      else match split_1 sep s' with
           | hd :: tl => String c hd :: tl
           | [] => [String c EmptyString]
           end
  end.

(** [s.split(sep)[0]] *)
Definition split_0 (sep : ascii) (s : string) : string :=
  match split_1 sep s with
  | hd :: _ => hd
  | [] => EmptyString
  end.

(** ** Data *)

(** [core.base.api.models.User], the attributes read in this module.
    [hashed_password] is [None] when the stored value is not a [str]. *)
Module User.
Record t : Type := mk {
  id : UUID;
  email : string;
  is_active : bool;
  is_verified : bool;
  is_superuser : bool;
  hashed_password : option string;
  name : option string
}.
End User.

(** The claims dictionary handed to and returned by the crypto provider,
    with the three keys this module reads and the types its annotations
    give them; a key that is missing reads [None], as [dict.get] does. *)
Module Payload.
Record t : Type := mk {
  sub : option string;
  token_type : option string;
  exp : option Z
}.
End Payload.

(** [{"sub": email}] *)
Definition data_sub (email : string) : Payload.t :=
  Payload.mk (Some email) None None.

(** [{**data, "token_type": t}] *)
Definition with_token_type (data : Payload.t) (t : string) : Payload.t :=
  Payload.mk (Payload.sub data) (Some t) (Payload.exp data).

Module TokenData.
Record t : Type := mk {
  email : string;
  token_type : string;
  exp : datetime
}.
End TokenData.

Module Token.
Record t : Type := mk {
  token : string;
  token_type : string
}.
End Token.

(** The row returned by [get_api_key_record]. *)
Module ApiKeyRecord.
Record t : Type := mk {
  hashed_key : string;
  user_id : UUID
}.
End ApiKeyRecord.

(** The dictionaries returned to the caller keep their keys in order. *)
Definition message_dict (message : string) : list (string * string) :=
  [("message", message)].

Definition token_dict (access refresh : string) : list (string * Token.t) :=
  [("access_token", Token.mk access "access");
   ("refresh_token", Token.mk refresh "refresh")].

(** ** The world and the collaborators *)

Record World (S : Type) : Type := mkWorld {
  clock : datetime;
  state : S
}.
Arguments mkWorld {S} clock state.
Arguments clock {S} _.
Arguments state {S} _.

(** [datetime.now(timezone.utc)] *)
Definition datetime_now {S} : M (World S) datetime :=
  fun w => (Return (clock w), w).

Module TokenHandler.
Record t (W : Type) : Type := mk {
  is_token_blacklisted : string -> M W bool;
  blacklist_token : string -> M W unit;
  clean_expired_blacklisted_tokens : M W unit
}.
Arguments is_token_blacklisted {W} _.
Arguments blacklist_token {W} _.
Arguments clean_expired_blacklisted_tokens {W} _.
End TokenHandler.

Module UsersHandler.
Record t (W : Type) : Type := mk {
  get_user_by_email : string -> M W (option User.t);
  get_user_by_id : UUID -> M W User.t;
  get_api_key_record : string -> M W (option ApiKeyRecord.t);
  get_user_id_by_verification_code : string -> M W UUID;
  mark_user_as_verified : UUID -> M W unit;
  remove_verification_code : string -> M W unit;
  store_reset_token : UUID -> string -> datetime -> M W unit
}.
Arguments get_user_by_email {W} _.
Arguments get_user_by_id {W} _.
Arguments get_api_key_record {W} _.
Arguments get_user_id_by_verification_code {W} _.
Arguments mark_user_as_verified {W} _.
Arguments remove_verification_code {W} _.
Arguments store_reset_token {W} _.
End UsersHandler.

Module CryptoProvider.
Record t (W : Type) : Type := mk {
  generate_secure_token : Payload.t -> datetime -> M W string;
  verify_secure_token : string -> M W (option Payload.t);
  verify_password : string -> string -> M W bool;
  verify_api_key : string -> string -> M W bool;
  generate_verification_code : M W string
}.
Arguments generate_secure_token {W} _.
Arguments verify_secure_token {W} _.
Arguments verify_password {W} _.
Arguments verify_api_key {W} _.
Arguments generate_verification_code {W} _.
End CryptoProvider.

Module EmailProvider.
Record t (W : Type) : Type := mk {
  send_password_reset_email : string -> string -> string -> M W unit
}.
Arguments send_password_reset_email {W} _.
End EmailProvider.

Module AuthConfig.
Record t : Type := mk {
  require_email_verification : bool
}.
End AuthConfig.

Definition DEFAULT_ACCESS_LIFETIME_IN_MINUTES : Z := 3600.
Definition DEFAULT_REFRESH_LIFETIME_IN_DAYS : Z := 7.

(** [self], once [__init__] has chosen the two lifetimes. *)
Record R2RAuthProvider (S : Type) : Type := mkProvider {
  config : AuthConfig.t;
  crypto_provider : CryptoProvider.t (World S);
  token_handler : TokenHandler.t (World S);
  users_handler : UsersHandler.t (World S);
  email_provider : EmailProvider.t (World S);
  access_token_lifetime_in_minutes : Z;
  refresh_token_lifetime_in_days : Z
}.
Arguments mkProvider {S}.
Arguments config {S} _.
Arguments crypto_provider {S} _.
Arguments token_handler {S} _.
Arguments users_handler {S} _.
Arguments email_provider {S} _.
Arguments access_token_lifetime_in_minutes {S} _.
Arguments refresh_token_lifetime_in_days {S} _.

(** The failure kinds of the provider, as the exceptions the source raises. *)
Definition Revoked : exn := R2RException 401 "Token has been invalidated".
Definition Invalid : exn := R2RException 401 "Invalid or expired token".
Definition MalformedClaims : exn := R2RException 401 "Invalid token claims".
Definition Expired : exn := R2RException 401 "Token has expired".
Definition InvalidFormat : exn := R2RException 401 "Invalid API key format".
Definition InvalidKey : exn := R2RException 401 "Invalid API key".
Definition InactiveAccount : exn := R2RException 401 "User account is inactive".
Definition InvalidCredentials : exn :=
  R2RException 401 "Invalid authentication credentials".
Definition WrongTokenType : exn := R2RException 401 "Invalid refresh token".
Definition IncorrectEmailOrPassword : exn :=
  R2RException 401 "Incorrect email or password".
Definition EmailNotVerified : exn := R2RException 401 "Email not verified".

(** ** The methods of [R2RAuthProvider] *)

Section Methods.
Context {S : Type}.
Local Abbreviation W := (World S).
Variable self : R2RAuthProvider S.

Definition create_access_token (data : Payload.t) : M W string :=
  now ← datetime_now;
  expire ← of_result
             (datetime_add now
                (timedelta_minutes (access_token_lifetime_in_minutes self)));
  let data_with_type := with_token_type data "access" in
  CryptoProvider.generate_secure_token (crypto_provider self)
    data_with_type expire.

Definition create_refresh_token (data : Payload.t) : M W string :=
  now ← datetime_now;
  expire ← of_result
             (datetime_add now
                (timedelta_days (refresh_token_lifetime_in_days self)));
  let data_with_type := with_token_type data "refresh" in
  CryptoProvider.generate_secure_token (crypto_provider self)
    data_with_type expire.

Definition decode_token (token : string) : M W TokenData.t :=
  blacklisted ← TokenHandler.is_token_blacklisted (token_handler self) token;
  if (blacklisted : bool) then raise Revoked
  else
    payload ← CryptoProvider.verify_secure_token (crypto_provider self) token;
    match payload with
    | None => raise Invalid
    | Some payload =>
        match Payload.sub payload, Payload.token_type payload, Payload.exp payload with
        | Some email, Some token_type, Some exp =>
            exp_datetime ← of_result (fromtimestamp exp);
            now ← datetime_now;
            if (exp_datetime <? now)%Z then raise Expired
            else mret (TokenData.mk email token_type exp_datetime)
        | _, _, _ => raise MalformedClaims
        end
    end.

(** [key_id, raw_key = parts] *)
Definition unpack_2 (parts : list string) : M W (string * string) :=
  match parts with
  | [key_id; raw_key] => mret (key_id, raw_key)
  | _ => raise ValueError
  end.

Definition authenticate_api_key (api_key : string) : M W User.t :=
  '(key_id, raw_key) ←
    try_except_ValueError (unpack_2 (split_1 "." api_key)) (raise InvalidFormat);
  key_record ← UsersHandler.get_api_key_record (users_handler self) key_id;
  match key_record with
  | None => raise InvalidKey
  | Some key_record =>
      verified ← CryptoProvider.verify_api_key (crypto_provider self)
                   raw_key (ApiKeyRecord.hashed_key key_record);
      if negb verified then raise InvalidKey
      else
        user ← UsersHandler.get_user_by_id (users_handler self)
                 (ApiKeyRecord.user_id key_record);
        if negb (User.is_active user) then raise InactiveAccount
        else mret user
  end.

Definition user (token : string) : M W User.t :=
  try_except_R2RException
    (token_data ← decode_token token;
     if negb (truthy (TokenData.email token_data))
     then raise (R2RException 401 "Could not validate credentials")
     else
       user ← UsersHandler.get_user_by_email (users_handler self)
                (TokenData.email token_data);
       match user with
       | None => raise InvalidCredentials
       | Some user => mret user
       end)
    (fun _ _ =>
       let token := removeprefix "Bearer " token in
       authenticate_api_key token).

Definition get_current_active_user (current_user : User.t) : result User.t :=
  if negb (User.is_active current_user)
  then Raise (R2RException 400 "Inactive user")
  else Return current_user.

Definition verify_email (email verification_code : string)
  : M W (list (string * string)) :=
  user_id ← UsersHandler.get_user_id_by_verification_code (users_handler self)
              verification_code;
  UsersHandler.mark_user_as_verified (users_handler self) user_id;;
  UsersHandler.remove_verification_code (users_handler self) verification_code;;
  mret (message_dict "Email verified successfully").

Definition login (email password : string) : M W (list (string * Token.t)) :=
  user ← UsersHandler.get_user_by_email (users_handler self) email;
  match user with
  | None => raise AttributeError
  | Some user =>
      match User.hashed_password user with
      | None => raise (HTTPException 500 "Invalid password hash in database")
      | Some hashed_password =>
          password_verified ←
            try_except_Exception
              (CryptoProvider.verify_password (crypto_provider self)
                 password hashed_password)
              (fun _ =>
                 raise (HTTPException 500 "Error during password verification"));
          if negb password_verified then raise IncorrectEmailOrPassword
          else if negb (User.is_verified user)
                  && AuthConfig.require_email_verification (config self)
          then raise EmailNotVerified
          else
            access_token ← create_access_token (data_sub (User.email user));
            refresh_token ← create_refresh_token (data_sub (User.email user));
            mret (token_dict access_token refresh_token)
      end
  end.

Definition refresh_access_token (refresh_token : string)
  : M W (list (string * Token.t)) :=
  token_data ← decode_token refresh_token;
  if negb (String.eqb (TokenData.token_type token_data) "refresh")
  then raise WrongTokenType
  else
    TokenHandler.blacklist_token (token_handler self) refresh_token;;
    new_access_token ←
      create_access_token (data_sub (TokenData.email token_data));
    new_refresh_token ←
      create_refresh_token (data_sub (TokenData.email token_data));
    mret (token_dict new_access_token new_refresh_token).

Definition reset_link_sent : list (string * string) :=
  message_dict "If the email exists, a reset link has been sent".

(** [user.name.split(" ")[0] if user.name else email.split("@")[0]] *)
Definition first_name_of (user_name : option string) (email : string) : string :=
  match user_name with
  | Some n => if truthy n then split_0 " " n else split_0 "@" email
  | None => split_0 "@" email
  end.

Definition request_password_reset (email : string)
  : M W (list (string * string)) :=
  try_except_R2RException
    (user ← UsersHandler.get_user_by_email (users_handler self) email;
     reset_token ←
       CryptoProvider.generate_verification_code (crypto_provider self);
     now ← datetime_now;
     let expiry := now + timedelta_hours 1 in
     match user with
     | None => raise AttributeError
     | Some user =>
         UsersHandler.store_reset_token (users_handler self)
           (User.id user) reset_token expiry;;
         let first_name := first_name_of (User.name user) email in
         EmailProvider.send_password_reset_email (email_provider self)
           email reset_token first_name;;
         mret reset_link_sent
     end)
    (fun status_code message =>
       if (status_code =? 404)%Z then mret reset_link_sent
       else raise (R2RException status_code message)).

Definition logout (token : string) : M W (list (string * string)) :=
  TokenHandler.blacklist_token (token_handler self) token;;
  mret (message_dict "Logged out successfully").

Definition clean_expired_blacklisted_tokens : M W unit :=
  TokenHandler.clean_expired_blacklisted_tokens (token_handler self).

(** *** Sequences of calls

    A caller's view of one provider over time: the public methods, called in
    any order, and the clock moving between calls. *)

Inductive call : Type :=
| Decode_token (token : string)
| Authenticate_api_key (api_key : string)
| User_of (token : string)
| Verify_email (email verification_code : string)
| Login (email password : string)
| Refresh_access_token (refresh_token : string)
| Request_password_reset (email : string)
| Logout (token : string)
| Clean_expired_blacklisted_tokens
| Elapse (delta : Z).

(** The world a computation leaves behind, whether it returns or raises. *)
Definition after {A} (c : M W A) (w : W) : W := snd (c w).

Definition step (c : call) (w : W) : W :=
  match c with
  | Decode_token token => after (decode_token token) w
  | Authenticate_api_key api_key => after (authenticate_api_key api_key) w
  | User_of token => after (user token) w
  | Verify_email email code => after (verify_email email code) w
  | Login email password => after (login email password) w
  | Refresh_access_token token => after (refresh_access_token token) w
  | Request_password_reset email => after (request_password_reset email) w
  | Logout token => after (logout token) w
  | Clean_expired_blacklisted_tokens => after clean_expired_blacklisted_tokens w
  | Elapse delta => mkWorld (clock w + delta) (state w)
  end.

Definition run (cs : list call) (w : W) : W :=
  fold_left (fun w c => step c w) cs w.

Definition is_sweep (c : call) : bool :=
  match c with
  | Clean_expired_blacklisted_tokens => true
  | _ => false
  end.

(** The clock does not go backwards during the call. *)
Definition forward (c : call) : bool :=
  match c with
  | Elapse delta => (0 <=? delta)%Z
  | _ => true
  end.

End Methods.

(** [c] occurs in [s]. *)
Fixpoint occurs (c : ascii) (s : string) : bool :=
  match s with
  | EmptyString => false
  | String c' s' => Ascii.eqb c' c || occurs c s'
  end.


(** ** The directory store, the notifier and a pure cipher *)

Module Model.

(** Modelled from the spec: the Directory Store (the Postgres handlers are
    not part of the sources at hand), together with the Notifier's outbox and
    the count of one-time codes drawn so far.  The blacklist is a set of
    token strings with idempotent insert and point lookup; users are looked
    up by email or id; a verification code is bound to one user id; a reset
    token is kept per user with its expiry; API key records are looked up by
    public key id. *)
Record t : Type := mk {
  blacklist : gset string;
  users : list User.t;
  api_keys : gmap string ApiKeyRecord.t;
  verification_codes : gmap string UUID;
  reset_tokens : gmap UUID (string * datetime);
  outbox : list (string * string * string);
  codes_drawn : nat
}.

(** Modelled from the spec: the Credential Cipher as pure functions
    ([signToken], [verifyToken], [verifyPassword], [verifyApiKey],
    [generateOneTimeCode]); [verifyPassword] may fail on a stored value that
    is not a valid hash. *)
Record Cipher : Type := mkCipher {
  signToken : Payload.t -> datetime -> string;
  verifyToken : string -> option Payload.t;
  verifyPassword : string -> string -> result bool;
  verifyApiKey : string -> string -> bool;
  generateOneTimeCode : nat -> string
}.

(** Modelled from the spec: the store's "not found" failure, with the status
    code that [request_password_reset] tests for and the message that
    [send_reset_email] uses. *)
Definition UserNotFound : exn := R2RException 404 "User not found".

(** Modelled from the spec: the failure kind [InvalidCode] of the lookup of
    a verification code that no user is bound to. *)
Definition InvalidCode : exn := R2RException 400 "Invalid verification code".

Definition set_blacklist (b : gset string) (s : t) : t :=
  mk b (users s) (api_keys s) (verification_codes s) (reset_tokens s)
     (outbox s) (codes_drawn s).

Definition set_users (us : list User.t) (s : t) : t :=
  mk (blacklist s) us (api_keys s) (verification_codes s) (reset_tokens s)
     (outbox s) (codes_drawn s).

Definition set_verification_codes (vc : gmap string UUID) (s : t) : t :=
  mk (blacklist s) (users s) (api_keys s) vc (reset_tokens s)
     (outbox s) (codes_drawn s).

Definition set_reset_tokens (rt : gmap UUID (string * datetime)) (s : t) : t :=
  mk (blacklist s) (users s) (api_keys s) (verification_codes s) rt
     (outbox s) (codes_drawn s).

Definition set_outbox (o : list (string * string * string)) (s : t) : t :=
  mk (blacklist s) (users s) (api_keys s) (verification_codes s)
     (reset_tokens s) o (codes_drawn s).

Definition set_codes_drawn (n : nat) (s : t) : t :=
  mk (blacklist s) (users s) (api_keys s) (verification_codes s)
     (reset_tokens s) (outbox s) n.

Definition query {A} (f : World t -> result A) : M (World t) A :=
  fun w => (f w, w).

Definition update (f : World t -> t) : M (World t) unit :=
  fun w => (Return tt, mkWorld (clock w) (f w)).

(** Modelled from the spec: a blacklisted token is past its own expiry at
    [now] when the cipher reads an expiry out of it that is earlier than
    [now]. *)
Definition past_expiry (cipher : Cipher) (now : datetime) (token : string) : bool :=
  match verifyToken cipher token with
  | Some payload =>
      match Payload.exp payload with
      | Some exp =>
          match fromtimestamp exp with
          | Return exp_datetime => (exp_datetime <? now)%Z
          | Raise _ => false
          end
      | None => false
      end
  | None => false
  end.

(** Modelled from the spec: [isTokenBlacklisted], [blacklistToken] and the
    maintenance sweep that purges the entries past their own token expiry. *)
Definition token_handler (cipher : Cipher) : TokenHandler.t (World t) :=
  TokenHandler.mk _
    (fun token =>
       query (fun w => Return (bool_decide (token ∈ blacklist (state w)))))
    (fun token =>
       update (fun w => set_blacklist ({[token]} ∪ blacklist (state w)) (state w)))
    (update (fun w =>
       set_blacklist
         (filter (fun token => past_expiry cipher (clock w) token = false)
                 (blacklist (state w)))
         (state w))).

(** Modelled from the spec: the first user that satisfies [p], or the
    store's "not found" failure. *)
Definition find_user (p : User.t -> bool) (s : t) : result User.t :=
  match List.find p (users s) with
  | Some u => Return u
  | None => Raise UserNotFound
  end.

Definition verified (u : User.t) : User.t :=
  User.mk (User.id u) (User.email u) (User.is_active u) true
          (User.is_superuser u) (User.hashed_password u) (User.name u).

(** Modelled from the spec: the user, API key, verification code and reset
    token operations of the Directory Store. *)
Definition users_handler : UsersHandler.t (World t) :=
  UsersHandler.mk _
    (fun email =>
       query (fun w =>
         match find_user (fun u => String.eqb (User.email u) email) (state w) with
         | Return u => Return (Some u)
         | Raise e => Raise e
         end))
    (fun id =>
       query (fun w => find_user (fun u => Pos.eqb (User.id u) id) (state w)))
    (fun key_id => query (fun w => Return (api_keys (state w) !! key_id)))
    (fun verification_code =>
       query (fun w =>
         match verification_codes (state w) !! verification_code with
         | Some user_id => Return user_id
         | None => Raise InvalidCode
         end))
    (fun id =>
       update (fun w =>
         set_users
           (List.map (fun u => if Pos.eqb (User.id u) id then verified u else u)
                     (users (state w)))
           (state w)))
    (fun verification_code =>
       update (fun w =>
         set_verification_codes
           (delete verification_code (verification_codes (state w))) (state w)))
    (fun id reset_token expiry =>
       update (fun w =>
         set_reset_tokens
           (<[id := (reset_token, expiry)]> (reset_tokens (state w))) (state w))).

(** Modelled from the spec: the crypto provider over a pure cipher; the
    one-time codes are drawn in sequence. *)
Definition crypto_provider (cipher : Cipher) : CryptoProvider.t (World t) :=
  CryptoProvider.mk _
    (fun data expiry => query (fun _ => Return (signToken cipher data expiry)))
    (fun token => query (fun _ => Return (verifyToken cipher token)))
    (fun plain_password hashed_password =>
       query (fun _ => verifyPassword cipher plain_password hashed_password))
    (fun raw_api_key hashed_key =>
       query (fun _ => Return (verifyApiKey cipher raw_api_key hashed_key)))
    (fun w =>
       (Return (generateOneTimeCode cipher (codes_drawn (state w))),
        mkWorld (clock w) (set_codes_drawn (S (codes_drawn (state w))) (state w)))).

(** Modelled from the spec: the Notifier records what it was asked to send. *)
Definition email_provider : EmailProvider.t (World t) :=
  EmailProvider.mk _
    (fun to_email reset_token first_name =>
       update (fun w =>
         set_outbox (outbox (state w) ++ [(to_email, reset_token, first_name)])
                    (state w))).

Definition provider (cipher : Cipher) (require_email_verification : bool)
    (access_minutes refresh_days : Z) : R2RAuthProvider t :=
  mkProvider (AuthConfig.mk require_email_verification)
    (crypto_provider cipher) (token_handler cipher) users_handler
    email_provider access_minutes refresh_days.

(** From [w] to [w'] the clock stands still and no blacklist entry is lost. *)
Definition grows (w w' : World t) : Prop :=
  clock w' = clock w /\ blacklist (state w) ⊆ blacklist (state w').

(** A computation after which the blacklist has only grown, whether it
    returns or raises. *)
Definition quiet {A} (c : M (World t) A) : Prop :=
  forall w, grows w (snd (c w)).

(** A token that cannot verify any more at [w]: blacklisted, or past the
    expiry the cipher reads out of it. *)
Definition dead (cipher : Cipher) (token : string) (w : World t) : Prop :=
  token ∈ blacklist (state w) \/ past_expiry cipher (clock w) token = true.

End Model.

(** ** A small deployment used to run the methods *)

Module Sample.

Definition alice : User.t :=
  User.mk 1%positive "alice@x.com" true true false (Some "h(pw1)") (Some "Alice A").
Definition bob : User.t :=
  User.mk 2%positive "bob@x.com" false true false (Some "h(pw2)") None.
Definition carol : User.t :=
  User.mk 3%positive "carol@x.com" true false false (Some "h(pw3)") (Some "").
Definition dave : User.t :=
  User.mk 4%positive "dave@x.com" true true false None None.
Definition erin : User.t :=
  User.mk 5%positive "erin@x.com" true true false (Some "corrupt") None.

Definition access_claims (email : string) (exp : Z) : Payload.t :=
  Payload.mk (Some email) (Some "access") (Some exp).
Definition refresh_claims (email : string) (exp : Z) : Payload.t :=
  Payload.mk (Some email) (Some "refresh") (Some exp).

(** A table cipher: a handful of token strings and what they carry. *)
Definition cipher : Model.Cipher :=
  Model.mkCipher
    (fun data expiry =>
       match Payload.token_type data with
       | Some "access" => "jwt.access.new"
       | _ => "jwt.refresh.new"
       end)
    (fun token =>
       if String.eqb token "jwt.access.new"
       then Some (access_claims "alice@x.com" (timedelta_minutes 3600 + 1000))
       else if String.eqb token "jwt.refresh.new"
       then Some (refresh_claims "alice@x.com" (timedelta_days 7 + 1000))
       else if String.eqb token "jwt.refresh.alice"
       then Some (refresh_claims "alice@x.com" 5000)
       else if String.eqb token "jwt.access.alice"
       then Some (access_claims "alice@x.com" 1000)
       else if String.eqb token "jwt.access.old"
       then Some (access_claims "alice@x.com" 10)
       else if String.eqb token "jwt.access.ghost"
       then Some (access_claims "ghost@x.com" 5000)
       else if String.eqb token "jwt.revoked"
       then Some (access_claims "alice@x.com" 5000)
       else if String.eqb token "jwt.noexp"
       then Some (Payload.mk (Some "alice@x.com") (Some "access") None)
       else None)
    (fun plain hashed =>
       if String.eqb hashed "corrupt" then Raise (Exception "UnknownHashError")
       else Return (String.eqb hashed ("h(" ++ plain ++ ")")))
    (fun raw hashed => String.eqb hashed ("h(" ++ raw ++ ")"))
    (fun n => match n with O => "otc-0" | _ => "otc-n" end).

Definition store : Model.t :=
  Model.mk {["jwt.revoked"]}
    [alice; bob; carol; dave; erin]
    (<["pk_alice" := ApiKeyRecord.mk "h(sk_alice)" 1%positive]>
       (<["pk_bob" := ApiKeyRecord.mk "h(sk_bob)" 2%positive]> ∅))
    {["123456" := 3%positive]}
    ∅
    []
    0.

Definition world : World Model.t := mkWorld 1000 store.

Definition auth : R2RAuthProvider Model.t :=
  Model.provider cipher true
    DEFAULT_ACCESS_LIFETIME_IN_MINUTES DEFAULT_REFRESH_LIFETIME_IN_DAYS.



End Sample.

(** ** The rest of the provider

    The methods below use more of the collaborators than the ones above:
    the remaining methods of the users handler, the collections and graphs
    handlers, and three more services of the crypto and email providers. *)

(** A user object as [register] handles it: the attributes above and
    [verification_code_expiry], which [register] writes. *)
Module Account.
Record t : Type := mk {
  user : User.t;
  verification_code_expiry : option datetime
}.
End Account.

Module CollectionResponse.
Record t : Type := mk {
  id : UUID;
  name : string;
  description : option string
}.
End CollectionResponse.

Module UsersHandlerRest.
Record t (W : Type) : Type := mk {
  create_user : string -> string -> bool -> M W Account.t;
  mark_user_as_superuser : UUID -> M W unit;
  add_user_to_collection : UUID -> UUID -> M W unit;
  store_verification_code : UUID -> string -> datetime -> M W unit;
  update_user_password : UUID -> string -> M W unit;
  get_user_id_by_reset_token : string -> M W (option UUID);
  remove_reset_token : UUID -> M W unit;
  store_user_api_key : UUID -> string -> string -> option string -> M W UUID
}.
Arguments create_user {W} _.
Arguments mark_user_as_superuser {W} _.
Arguments add_user_to_collection {W} _.
Arguments store_verification_code {W} _.
Arguments update_user_password {W} _.
Arguments get_user_id_by_reset_token {W} _.
Arguments remove_reset_token {W} _.
Arguments store_user_api_key {W} _.
End UsersHandlerRest.

Module CollectionsHandler.
Record t (W : Type) : Type := mk {
  create_collection : UUID -> M W CollectionResponse.t
}.
Arguments create_collection {W} _.
End CollectionsHandler.

Module GraphsHandler.
Record t (W : Type) : Type := mk {
  create : UUID -> string -> option string -> M W unit
}.
Arguments create {W} _.
End GraphsHandler.

Module CryptoProviderRest.
Record t (W : Type) : Type := mk {
  get_password_hash : string -> M W string;
  generate_api_key : M W (string * string);
  hash_api_key : string -> M W string
}.
Arguments get_password_hash {W} _.
Arguments generate_api_key {W} _.
Arguments hash_api_key {W} _.
End CryptoProviderRest.

Module EmailProviderRest.
Record t (W : Type) : Type := mk {
  send_verification_email : string -> string -> string -> M W unit
}.
Arguments send_verification_email {W} _.
End EmailProviderRest.

(** What [self] holds besides the fields of [R2RAuthProvider]; [str_uuid]
    is [str] on a [UUID]. *)
Module Rest.
Record t (S : Type) : Type := mk {
  admin_email : string;
  admin_password : string;
  users_handler : UsersHandlerRest.t (World S);
  collections_handler : CollectionsHandler.t (World S);
  graphs_handler : GraphsHandler.t (World S);
  crypto_provider : CryptoProviderRest.t (World S);
  email_provider : EmailProviderRest.t (World S);
  str_uuid : UUID -> string
}.
Arguments admin_email {S} _.
Arguments admin_password {S} _.
Arguments users_handler {S} _.
Arguments collections_handler {S} _.
Arguments graphs_handler {S} _.
Arguments crypto_provider {S} _.
Arguments email_provider {S} _.
Arguments str_uuid {S} _.
End Rest.

(** The dictionary returned by [send_reset_email]. *)
Module ResetEmail.
Record t : Type := mk {
  verification_code : string;
  expiry : datetime;
  message : string
}.
End ResetEmail.

(** [name or ""] *)
Definition or_empty (name : option string) : string :=
  match name with
  | Some n => if truthy n then n else ""
  | None => ""
  end.

Section MoreMethods.
Context {S : Type}.
Local Abbreviation W := (World S).
Variable self : R2RAuthProvider S.
Variable rest : Rest.t S.

Definition register (email password : string) (is_superuser : bool)
  : M W Account.t :=
  new_user ← UsersHandlerRest.create_user (Rest.users_handler rest)
               email password is_superuser;
  default_collection ←
    CollectionsHandler.create_collection (Rest.collections_handler rest)
      (User.id (Account.user new_user));
  GraphsHandler.create (Rest.graphs_handler rest)
    (CollectionResponse.id default_collection)
    (CollectionResponse.name default_collection)
    (CollectionResponse.description default_collection);;
  UsersHandlerRest.add_user_to_collection (Rest.users_handler rest)
    (User.id (Account.user new_user)) (CollectionResponse.id default_collection);;
  if AuthConfig.require_email_verification (config self)
  then
    verification_code ←
      CryptoProvider.generate_verification_code (crypto_provider self);
    now ← datetime_now;
    let expiry := now + timedelta_hours 24 in
    UsersHandlerRest.store_verification_code (Rest.users_handler rest)
      (User.id (Account.user new_user)) verification_code expiry;;
    let new_user := Account.mk (Account.user new_user) (Some expiry) in
    let first_name := first_name_of (User.name (Account.user new_user)) email in
    EmailProviderRest.send_verification_email (Rest.email_provider rest)
      (User.email (Account.user new_user)) verification_code first_name;;
    mret new_user
  else
    now ← datetime_now;
    let expiry := now + timedelta_hours (366 * 10) in
    UsersHandlerRest.store_verification_code (Rest.users_handler rest)
      (User.id (Account.user new_user)) "-1" expiry;;
    UsersHandler.mark_user_as_verified (users_handler self)
      (User.id (Account.user new_user));;
    mret new_user.

Definition initialize : M W unit :=
  try_except_R2RException
    (user ← register (Rest.admin_email rest) (Rest.admin_password rest) true;
     UsersHandlerRest.mark_user_as_superuser (Rest.users_handler rest)
       (User.id (Account.user user)))
    (fun _ _ => mret tt).

Definition change_password (user : User.t) (current_password new_password : string)
  : M W (list (string * string)) :=
  match User.hashed_password user with
  | None => raise (HTTPException 500 "Invalid password hash in database")
  | Some hashed_password =>
      verified ← CryptoProvider.verify_password (crypto_provider self)
                   current_password hashed_password;
      if negb verified
      then raise (R2RException 400 "Incorrect current password")
      else
        hashed_new_password ←
          CryptoProviderRest.get_password_hash (Rest.crypto_provider rest)
            new_password;
        UsersHandlerRest.update_user_password (Rest.users_handler rest)
          (User.id user) hashed_new_password;;
        mret (message_dict "Password changed successfully")
  end.

Definition confirm_password_reset (reset_token new_password : string)
  : M W (list (string * string)) :=
  user_id ← UsersHandlerRest.get_user_id_by_reset_token (Rest.users_handler rest)
              reset_token;
  match user_id with
  | None => raise (R2RException 400 "Invalid or expired reset token")
  | Some user_id =>
      hashed_new_password ←
        CryptoProviderRest.get_password_hash (Rest.crypto_provider rest)
          new_password;
      UsersHandlerRest.update_user_password (Rest.users_handler rest)
        user_id hashed_new_password;;
      UsersHandlerRest.remove_reset_token (Rest.users_handler rest) user_id;;
      mret (message_dict "Password reset successfully")
  end.

Definition send_reset_email (email : string) : M W ResetEmail.t :=
  user ← UsersHandler.get_user_by_email (users_handler self) email;
  match user with
  | None => raise (R2RException 404 "User not found")
  | Some user =>
      verification_code ←
        CryptoProvider.generate_verification_code (crypto_provider self);
      now ← datetime_now;
      let expiry := now + timedelta_hours 24 in
      UsersHandlerRest.store_verification_code (Rest.users_handler rest)
        (User.id user) verification_code expiry;;
      let first_name := first_name_of (User.name user) email in
      EmailProviderRest.send_verification_email (Rest.email_provider rest)
        email verification_code first_name;;
      mret (ResetEmail.mk verification_code expiry
              ("Verification email sent successfully to " ++ email))
  end.

Definition create_user_api_key (user_id : UUID) (name : option string)
  : M W (list (string * string)) :=
  '(key_id, raw_api_key) ←
    CryptoProviderRest.generate_api_key (Rest.crypto_provider rest);
  hashed_key ←
    CryptoProviderRest.hash_api_key (Rest.crypto_provider rest) raw_api_key;
  api_key_uuid ←
    UsersHandlerRest.store_user_api_key (Rest.users_handler rest)
      user_id key_id hashed_key name;
  mret [("api_key", key_id ++ String "." raw_api_key);
        ("key_id", Rest.str_uuid rest api_key_uuid);
        ("public_key", key_id);
        ("name", or_empty name)].

End MoreMethods.

(** ** The rest of the collaborators over the directory store *)

Module ModelRest.

(** Modelled from the spec: [hashPassword], [generateApiKey] and
    [hashApiKey] of the Credential Cipher, as pure functions. *)
Record Cipher : Type := mkCipher {
  hashPassword : string -> string;
  generateApiKey : nat -> string * string;
  hashApiKey : string -> string
}.

(** Modelled from the spec: the failure kind [AlreadyExists] of a duplicate
    registration. *)
Definition AlreadyExists : exn :=
  R2RException 400 "User with this email already exists".

(** An id above every id in use. *)
Definition fresh_id (s : Model.t) : UUID :=
  Pos.succ (fold_right Pos.max 1%positive (List.map User.id (Model.users s))).

Definition with_password (h : string) (u : User.t) : User.t :=
  User.mk (User.id u) (User.email u) (User.is_active u) (User.is_verified u)
          (User.is_superuser u) (Some h) (User.name u).

Definition superuser (u : User.t) : User.t :=
  User.mk (User.id u) (User.email u) (User.is_active u) (User.is_verified u)
          true (User.hashed_password u) (User.name u).

(** Modelled from the spec: the reset token of a user resolves to that user
    until its expiry. *)
Definition resolve_reset_token (now : datetime) (reset_token : string)
    (s : Model.t) : option UUID :=
  match
    List.find
      (fun entry : UUID * (string * datetime) =>
         String.eqb (fst (snd entry)) reset_token
         && (now <=? snd (snd entry))%Z)
      (map_to_list (Model.reset_tokens s))
  with
  | Some entry => Some (fst entry)
  | None => None
  end.

(** Modelled from the spec: the remaining user operations of the Directory
    Store.  A new user is active and unverified, with the password hashed;
    a duplicate email is refused; a verification code is bound to the user
    it is stored for; collections and graphs leave no trace in this state. *)
Definition users_handler (cipher : Cipher) : UsersHandlerRest.t (World Model.t) :=
  UsersHandlerRest.mk _
    (fun email password is_superuser w =>
       match List.find (fun u => String.eqb (User.email u) email)
                       (Model.users (state w)) with
       | Some _ => (Raise AlreadyExists, w)
       | None =>
           let u := User.mk (fresh_id (state w)) email true false is_superuser
                            (Some (hashPassword cipher password)) None in
           (Return (Account.mk u None),
            mkWorld (clock w)
              (Model.set_users (Model.users (state w) ++ [u]) (state w)))
       end)
    (fun id =>
       Model.update (fun w =>
         Model.set_users
           (List.map (fun u => if Pos.eqb (User.id u) id then superuser u else u)
                     (Model.users (state w)))
           (state w)))
    (fun _ _ => Model.update (fun w => state w))
    (fun id verification_code _ =>
       Model.update (fun w =>
         Model.set_verification_codes
           (<[verification_code := id]> (Model.verification_codes (state w)))
           (state w)))
    (fun id new_hashed_password =>
       Model.update (fun w =>
         Model.set_users
           (List.map (fun u => if Pos.eqb (User.id u) id
                               then with_password new_hashed_password u else u)
                     (Model.users (state w)))
           (state w)))
    (fun reset_token =>
       Model.query (fun w =>
         Return (resolve_reset_token (clock w) reset_token (state w))))
    (fun id =>
       Model.update (fun w =>
         Model.set_reset_tokens (delete id (Model.reset_tokens (state w)))
                                (state w)))
    (fun user_id key_id hashed_key _ w =>
       (Return (Pos.of_succ_nat (size (Model.api_keys (state w)))),
        mkWorld (clock w)
          (Model.mk (Model.blacklist (state w)) (Model.users (state w))
             (<[key_id := ApiKeyRecord.mk hashed_key user_id]>
                (Model.api_keys (state w)))
             (Model.verification_codes (state w))
             (Model.reset_tokens (state w)) (Model.outbox (state w))
             (Model.codes_drawn (state w))))).

Definition collections_handler : CollectionsHandler.t (World Model.t) :=
  CollectionsHandler.mk _
    (fun owner_id =>
       Model.query (fun _ => Return (CollectionResponse.mk owner_id "Default" None))).

Definition graphs_handler : GraphsHandler.t (World Model.t) :=
  GraphsHandler.mk _ (fun _ _ _ => Model.update (fun w => state w)).

Definition crypto_provider (cipher : Cipher)
  : CryptoProviderRest.t (World Model.t) :=
  CryptoProviderRest.mk _
    (fun password => Model.query (fun _ => Return (hashPassword cipher password)))
    (fun w =>
       (Return (generateApiKey cipher (Model.codes_drawn (state w))),
        mkWorld (clock w)
          (Model.set_codes_drawn (Datatypes.S (Model.codes_drawn (state w)))
                                 (state w))))
    (fun raw_api_key =>
       Model.query (fun _ => Return (hashApiKey cipher raw_api_key))).

Definition email_provider : EmailProviderRest.t (World Model.t) :=
  EmailProviderRest.mk _
    (fun to_email verification_code first_name =>
       Model.update (fun w =>
         Model.set_outbox
           (Model.outbox (state w) ++ [(to_email, verification_code, first_name)])
           (state w))).

Definition rest (cipher : Cipher) (admin_email admin_password : string)
  : Rest.t Model.t :=
  Rest.mk _ admin_email admin_password (users_handler cipher)
    collections_handler graphs_handler (crypto_provider cipher) email_provider
    (fun id => "key-" ++ String (ascii_of_pos id) EmptyString).

End ModelRest.

Module Sample2.

Definition cipher : ModelRest.Cipher :=
  ModelRest.mkCipher
    (fun password => "h(" ++ password ++ ")")
    (fun _ => ("pk_new", "sk_new"))
    (fun raw => "h(" ++ raw ++ ")").

Definition rest : Rest.t Model.t :=
  ModelRest.rest cipher "admin@x.com" "change_me".

(** A mail server that refuses every verification mail. *)
Definition rest_mail_down : Rest.t Model.t :=
  Rest.mk _ "admin@x.com" "change_me" (ModelRest.users_handler cipher)
    ModelRest.collections_handler ModelRest.graphs_handler
    (ModelRest.crypto_provider cipher)
    (EmailProviderRest.mk _ (fun _ _ _ => raise (Exception "SMTPException")))
    (Rest.str_uuid rest).

(** A database that refuses to write a password. *)
Definition rest_read_only : Rest.t Model.t :=
  Rest.mk _ "admin@x.com" "change_me"
    (UsersHandlerRest.mk _
       (UsersHandlerRest.create_user (ModelRest.users_handler cipher))
       (UsersHandlerRest.mark_user_as_superuser (ModelRest.users_handler cipher))
       (UsersHandlerRest.add_user_to_collection (ModelRest.users_handler cipher))
       (UsersHandlerRest.store_verification_code (ModelRest.users_handler cipher))
       (fun _ _ => raise (Exception "ReadOnlySqlTransaction"))
       (UsersHandlerRest.get_user_id_by_reset_token (ModelRest.users_handler cipher))
       (UsersHandlerRest.remove_reset_token (ModelRest.users_handler cipher))
       (UsersHandlerRest.store_user_api_key (ModelRest.users_handler cipher)))
    ModelRest.collections_handler ModelRest.graphs_handler
    (ModelRest.crypto_provider cipher) ModelRest.email_provider
    (Rest.str_uuid rest).

(** The sample deployment without email verification. *)
Definition auth_open : R2RAuthProvider Model.t :=
  Model.provider Sample.cipher false
    DEFAULT_ACCESS_LIFETIME_IN_MINUTES DEFAULT_REFRESH_LIFETIME_IN_DAYS.

(** A blacklist that cannot be read. *)
Definition auth_blacklist_down : R2RAuthProvider Model.t :=
  mkProvider (AuthConfig.mk true)
    (Model.crypto_provider Sample.cipher)
    (TokenHandler.mk _
       (fun _ => raise (Exception "ConnectionError"))
       (TokenHandler.blacklist_token (Model.token_handler Sample.cipher))
       (TokenHandler.clean_expired_blacklisted_tokens
          (Model.token_handler Sample.cipher)))
    Model.users_handler Model.email_provider
    DEFAULT_ACCESS_LIFETIME_IN_MINUTES DEFAULT_REFRESH_LIFETIME_IN_DAYS.

(** A blacklist that can be read and not written. *)
Definition auth_blacklist_read_only : R2RAuthProvider Model.t :=
  mkProvider (AuthConfig.mk true)
    (Model.crypto_provider Sample.cipher)
    (TokenHandler.mk _
       (TokenHandler.is_token_blacklisted (Model.token_handler Sample.cipher))
       (fun _ => raise (Exception "ReadOnlySqlTransaction"))
       (TokenHandler.clean_expired_blacklisted_tokens
          (Model.token_handler Sample.cipher)))
    Model.users_handler Model.email_provider
    DEFAULT_ACCESS_LIFETIME_IN_MINUTES DEFAULT_REFRESH_LIFETIME_IN_DAYS.

(** A mailer that answers 404 to every reset mail. *)
Definition auth_mail_404 : R2RAuthProvider Model.t :=
  mkProvider (AuthConfig.mk true)
    (Model.crypto_provider Sample.cipher) (Model.token_handler Sample.cipher)
    Model.users_handler
    (EmailProvider.mk _
       (fun _ _ _ => raise (R2RException 404 "Template not found")))
    DEFAULT_ACCESS_LIFETIME_IN_MINUTES DEFAULT_REFRESH_LIFETIME_IN_DAYS.

(** A store whose lookup by email returns no object for anybody. *)
Definition auth_lookup_none : R2RAuthProvider Model.t :=
  mkProvider (AuthConfig.mk true)
    (Model.crypto_provider Sample.cipher) (Model.token_handler Sample.cipher)
    (UsersHandler.mk _
       (fun _ => mret None)
       (UsersHandler.get_user_by_id Model.users_handler)
       (UsersHandler.get_api_key_record Model.users_handler)
       (UsersHandler.get_user_id_by_verification_code Model.users_handler)
       (UsersHandler.mark_user_as_verified Model.users_handler)
       (UsersHandler.remove_verification_code Model.users_handler)
       (UsersHandler.store_reset_token Model.users_handler))
    Model.email_provider
    DEFAULT_ACCESS_LIFETIME_IN_MINUTES DEFAULT_REFRESH_LIFETIME_IN_DAYS.

(** A cipher that has signed an expiry counted in milliseconds where
    seconds were meant: 1.7e12 seconds after the epoch, in the year 55840. *)
Definition cipher_ms : Model.Cipher :=
  Model.mkCipher
    (Model.signToken Sample.cipher)
    (fun token =>
       if String.eqb token "jwt.access.ms"
       then Some (Sample.access_claims "alice@x.com" 1700000000000000000)
       else Model.verifyToken Sample.cipher token)
    (Model.verifyPassword Sample.cipher)
    (Model.verifyApiKey Sample.cipher)
    (Model.generateOneTimeCode Sample.cipher).

Definition auth_ms : R2RAuthProvider Model.t :=
  Model.provider cipher_ms true
    DEFAULT_ACCESS_LIFETIME_IN_MINUTES DEFAULT_REFRESH_LIFETIME_IN_DAYS.

(** The user that registering Zoe creates in the sample store. *)
Definition zoe : User.t :=
  User.mk 6%positive "zoe@x.com" true false false (Some "h(pwz)") None.

(** The sample store with Alice suspended and nothing blacklisted. *)
Definition world_suspended : World Model.t :=
  mkWorld 1000
    (Model.set_blacklist ∅
       (Model.set_users
          [User.mk 1%positive "alice@x.com" false true false (Some "h(pw1)")
                   (Some "Alice A")]
          Sample.store)).

(** The sample store with a reset token pending for Alice. *)
Definition world_reset : World Model.t :=
  mkWorld 1000
    (Model.set_reset_tokens {[1%positive := ("otc-0", 5000%Z)]} Sample.store).

End Sample2.

(** * Properties *)

Example split_1_key : split_1 "." "pk_alice.sk.x" = ["pk_alice"; "sk.x"].
Proof. reflexivity. Qed.

Example split_1_plain : split_1 "." "pk_alice" = ["pk_alice"].
Proof. reflexivity. Qed.

Example removeprefix_bearer : removeprefix "Bearer " "Bearer abc" = "abc".
Proof. reflexivity. Qed.

Example removeprefix_short : removeprefix "Bearer " "Bear" = "Bear".
Proof. reflexivity. Qed.

Example decode_at_expiry_instant :
  fst (decode_token Sample.auth "jwt.access.alice" Sample.world)
  = Return (TokenData.mk "alice@x.com" "access" 1000).
Proof. reflexivity. Qed.

(** ** Splitting *)

Lemma split_1_nonempty sep s : split_1 sep s <> [].
Proof.
  destruct s as [|c s]; simpl; [discriminate|].
  destruct (Ascii.eqb c sep); [discriminate|].
  destruct (split_1 sep s); discriminate.
Qed.

Lemma split_1_absent sep s : occurs sep s = false -> split_1 sep s = [s].
Proof.
  induction s as [|c s IH]; simpl; intros H; [reflexivity|].
  apply orb_false_iff in H as [Hc Hs].
  rewrite Hc, (IH Hs). reflexivity.
Qed.

Lemma split_1_first sep a b :
  occurs sep a = false ->
  split_1 sep (a ++ String sep b) = [a; b].
Proof.
  induction a as [|c a IH]; simpl; intros H.
  - rewrite Ascii.eqb_refl. reflexivity.
  - apply orb_false_iff in H as [Hc Ha].
    rewrite Hc, (IH Ha). reflexivity.
Qed.

(** ** Running method bodies *)

Ltac run_method :=
  unfold mbind, M_bind, mret, M_ret, raise, of_result, datetime_now,
    try_except_ValueError, try_except_R2RException, try_except_Exception; simpl.

Section Generic.
Context {S : Type}.
Variable self : R2RAuthProvider S.
Local Abbreviation W := (World S).

(** ** [decode_token] *)




Lemma decode_token_claims token (w w1 w2 : W) email token_type exp :
  TokenHandler.is_token_blacklisted (token_handler self) token w = (Return false, w1) ->
  CryptoProvider.verify_secure_token (crypto_provider self) token w1
    = (Return (Some (Payload.mk (Some email) (Some token_type) (Some exp))), w2) ->
  decode_token self token w =
    match fromtimestamp exp with
    | Return exp_datetime =>
        if (exp_datetime <? clock w2)%Z then (Raise Expired, w2)
        else (Return (TokenData.mk email token_type exp_datetime), w2)
    | Raise e => (Raise e, w2)
    end.
Proof.
  intros H1 H2. unfold decode_token. run_method. rewrite H1, H2. simpl.
  destruct (fromtimestamp exp) as [d|e]; [|reflexivity].
  destruct (d <? clock w2)%Z; reflexivity.
Qed.

(** What [datetime.fromtimestamp] raises is none of the failures of
    [decode_token] itself. *)
Lemma fromtimestamp_fault exp e :
  fromtimestamp exp = Raise e ->
  e = ValueError \/ e = OSError \/ e = OverflowError.
Proof.
  unfold fromtimestamp. cbv zeta. intros H.
  repeat match type of H with
         | (if ?b then _ else _) = _ => destruct b
         end; first [discriminate | injection H as <-; auto].
Qed.

Lemma fromtimestamp_value exp exp_datetime :
  fromtimestamp exp = Return exp_datetime ->
  exp_datetime = exp /\ in_datetime_range exp = true.
Proof.
  unfold fromtimestamp. cbv zeta. intros H.
  destruct (in_datetime_range exp); [injection H as <-; auto|].
  repeat match type of H with
         | (if ?b then _ else _) = _ => destruct b
         end; discriminate.
Qed.


(** C10. With the string not blacklisted and a payload carrying the three
    claims, [decode_token] fails with Expired only when the expiry decodes
    into an instant strictly earlier than the current time, and it does fail
    so for every such instant; a decoded expiry equal to the current
    instant is accepted. *)
Theorem decode_token_expiry_boundary token (w w1 w2 : W) email token_type exp :
  TokenHandler.is_token_blacklisted (token_handler self) token w = (Return false, w1) ->
  CryptoProvider.verify_secure_token (crypto_provider self) token w1
    = (Return (Some (Payload.mk (Some email) (Some token_type) (Some exp))), w2) ->
  (decode_token self token w = (Raise Expired, w2) ->
   exists exp_datetime,
     fromtimestamp exp = Return exp_datetime /\ (exp_datetime < clock w2)%Z)
  /\ (forall exp_datetime,
      fromtimestamp exp = Return exp_datetime ->
      (exp_datetime < clock w2)%Z ->
      decode_token self token w = (Raise Expired, w2))
  /\ (forall exp_datetime,
      fromtimestamp exp = Return exp_datetime ->
      exp_datetime = clock w2 ->
      decode_token self token w
        = (Return (TokenData.mk email token_type exp_datetime), w2)).
Proof.
  intros H1 H2. rewrite (decode_token_claims _ _ _ _ _ _ _ H1 H2).
  repeat apply conj.
  - destruct (fromtimestamp exp) as [d|e] eqn:Hd.
    + destruct (Z.ltb_spec d (clock w2)) as [Hlt|Hge]; [eauto | discriminate].
    + intros [= ->]. apply fromtimestamp_fault in Hd.
      destruct Hd as [Hd|[Hd|Hd]]; discriminate.
  - intros d -> Hlt. apply Z.ltb_lt in Hlt. rewrite Hlt. reflexivity.
  - intros d -> ->. rewrite Z.ltb_irrefl. reflexivity.
Qed.

(** ** [authenticate_api_key] *)

Lemma authenticate_api_key_split key_id raw_key (w : W) :
  occurs "." key_id = false ->
  authenticate_api_key self (key_id ++ String "." raw_key) w =
    (key_record ← UsersHandler.get_api_key_record (users_handler self) key_id;
     match key_record with
     | None => raise InvalidKey
     | Some key_record =>
         verified ← CryptoProvider.verify_api_key (crypto_provider self)
                      raw_key (ApiKeyRecord.hashed_key key_record);
         if negb verified then raise InvalidKey
         else
           user ← UsersHandler.get_user_by_id (users_handler self)
                    (ApiKeyRecord.user_id key_record);
           if negb (User.is_active user) then raise InactiveAccount
           else mret user
     end) w.
Proof.
  intros H. unfold authenticate_api_key.
  rewrite (split_1_first _ _ _ H). reflexivity.
Qed.

(** C6. [authenticate_api_key] splits on the first [.]: a string without
    the separator fails with InvalidFormat; a public id with no stored record
    and a stored record whose hash does not match the raw secret fail with
    the same InvalidKey; a matching key of an inactive user fails with
    InactiveAccount, and one of an active user returns that user. *)
Theorem authenticate_api_key_failures :
  (forall api_key (w : W),
      occurs "." api_key = false ->
      authenticate_api_key self api_key w = (Raise InvalidFormat, w))
  /\ (forall key_id raw_key (w w1 : W),
      occurs "." key_id = false ->
      UsersHandler.get_api_key_record (users_handler self) key_id w
        = (Return None, w1) ->
      authenticate_api_key self (key_id ++ String "." raw_key) w
        = (Raise InvalidKey, w1))
  /\ (forall key_id raw_key (w w1 w2 : W) key_record,
      occurs "." key_id = false ->
      UsersHandler.get_api_key_record (users_handler self) key_id w
        = (Return (Some key_record), w1) ->
      CryptoProvider.verify_api_key (crypto_provider self) raw_key
        (ApiKeyRecord.hashed_key key_record) w1 = (Return false, w2) ->
      authenticate_api_key self (key_id ++ String "." raw_key) w
        = (Raise InvalidKey, w2))
  /\ (forall key_id raw_key (w w1 w2 w3 : W) key_record user,
      occurs "." key_id = false ->
      UsersHandler.get_api_key_record (users_handler self) key_id w
        = (Return (Some key_record), w1) ->
      CryptoProvider.verify_api_key (crypto_provider self) raw_key
        (ApiKeyRecord.hashed_key key_record) w1 = (Return true, w2) ->
      UsersHandler.get_user_by_id (users_handler self)
        (ApiKeyRecord.user_id key_record) w2 = (Return user, w3) ->
      authenticate_api_key self (key_id ++ String "." raw_key) w
        = if User.is_active user then (Return user, w3)
          else (Raise InactiveAccount, w3)).
Proof.
  repeat split.
  - intros api_key w H. unfold authenticate_api_key.
    rewrite (split_1_absent _ _ H). reflexivity.
  - intros key_id raw_key w w1 H H1.
    rewrite (authenticate_api_key_split _ _ _ H). run_method.
    rewrite H1. reflexivity.
  - intros key_id raw_key w w1 w2 key_record H H1 H2.
    rewrite (authenticate_api_key_split _ _ _ H). run_method.
    rewrite H1. simpl. rewrite H2. reflexivity.
  - intros key_id raw_key w w1 w2 w3 key_record u H H1 H2 H3.
    rewrite (authenticate_api_key_split _ _ _ H). run_method.
    rewrite H1. simpl. rewrite H2. simpl. rewrite H3.
    destruct (User.is_active u); reflexivity.
Qed.

(** ** [user] *)

(** C1, as amended. When token verification fails with an [R2RException],
    whatever its kind, [user] is the API key attempt on the string with the
    [Bearer ] prefix stripped, run in the world token verification left: a
    failure of that attempt is the failure of [user], unchanged. *)
Theorem user_falls_back_to_api_key token (w w1 : W) status_code message :
  decode_token self token w = (Raise (R2RException status_code message), w1) ->
  user self token w
    = authenticate_api_key self (removeprefix "Bearer " token) w1
  /\ (forall e w2,
      authenticate_api_key self (removeprefix "Bearer " token) w1 = (Raise e, w2) ->
      user self token w = (Raise e, w2)).
Proof.
  intros H.
  assert (Hu : user self token w
               = authenticate_api_key self (removeprefix "Bearer " token) w1).
  { unfold user, try_except_R2RException, mbind, M_bind.
    rewrite H. reflexivity. }
  split; [exact Hu|]. intros e w2 He. rewrite Hu. exact He.
Qed.

(** A token that verifies but whose subject resolves to no user object is
    handed to the API key attempt as well: the exception raised for it is
    caught by the method's own handler. *)
Lemma user_unresolved_subject token (w w1 w2 : W) token_data :
  decode_token self token w = (Return token_data, w1) ->
  truthy (TokenData.email token_data) = true ->
  UsersHandler.get_user_by_email (users_handler self)
    (TokenData.email token_data) w1 = (Return None, w2) ->
  user self token w
    = authenticate_api_key self (removeprefix "Bearer " token) w2.
Proof.
  intros H1 Ht H2.
  unfold user, try_except_R2RException, mbind, M_bind.
  rewrite H1, Ht. simpl. rewrite H2. reflexivity.
Qed.

(** ** [verify_email] and [refresh_access_token], step by step *)

Lemma verify_email_lookup_raises email verification_code (w w1 : W) e :
  UsersHandler.get_user_id_by_verification_code (users_handler self)
    verification_code w = (Raise e, w1) ->
  verify_email self email verification_code w = (Raise e, w1).
Proof. intros H. unfold verify_email. run_method. rewrite H. reflexivity. Qed.

Lemma verify_email_marks_then_removes email verification_code
    (w w1 w2 w3 : W) user_id :
  UsersHandler.get_user_id_by_verification_code (users_handler self)
    verification_code w = (Return user_id, w1) ->
  UsersHandler.mark_user_as_verified (users_handler self) user_id w1
    = (Return tt, w2) ->
  UsersHandler.remove_verification_code (users_handler self)
    verification_code w2 = (Return tt, w3) ->
  verify_email self email verification_code w
    = (Return (message_dict "Email verified successfully"), w3).
Proof.
  intros H1 H2 H3. unfold verify_email. run_method.
  rewrite H1. simpl. rewrite H2. simpl. rewrite H3. reflexivity.
Qed.

(** When the blacklist write fails, no token is issued. *)
Lemma refresh_access_token_blacklist_fault refresh_token (w w1 w2 : W)
    token_data e :
  decode_token self refresh_token w = (Return token_data, w1) ->
  TokenData.token_type token_data = "refresh" ->
  TokenHandler.blacklist_token (token_handler self) refresh_token w1
    = (Raise e, w2) ->
  refresh_access_token self refresh_token w = (Raise e, w2).
Proof.
  intros H1 Hk H2. unfold refresh_access_token, mbind, M_bind.
  rewrite H1, Hk. simpl. rewrite H2. reflexivity.
Qed.

(** ** [login] *)

Lemma login_lookup_raises email password (w w1 : W) e :
  UsersHandler.get_user_by_email (users_handler self) email w = (Raise e, w1) ->
  login self email password w = (Raise e, w1).
Proof. intros H. unfold login. run_method. rewrite H. reflexivity. Qed.

Lemma login_lookup_none email password (w w1 : W) :
  UsersHandler.get_user_by_email (users_handler self) email w = (Return None, w1) ->
  login self email password w = (Raise AttributeError, w1).
Proof. intros H. unfold login. run_method. rewrite H. reflexivity. Qed.

Lemma login_wrong_password email password (w w1 w2 : W) user hashed_password :
  UsersHandler.get_user_by_email (users_handler self) email w
    = (Return (Some user), w1) ->
  User.hashed_password user = Some hashed_password ->
  CryptoProvider.verify_password (crypto_provider self) password hashed_password w1
    = (Return false, w2) ->
  login self email password w = (Raise IncorrectEmailOrPassword, w2).
Proof.
  intros H1 Hh H2. unfold login. run_method. rewrite H1. simpl.
  rewrite Hh, H2. reflexivity.
Qed.

Lemma login_email_not_verified email password (w w1 w2 : W) user hashed_password :
  UsersHandler.get_user_by_email (users_handler self) email w
    = (Return (Some user), w1) ->
  User.hashed_password user = Some hashed_password ->
  CryptoProvider.verify_password (crypto_provider self) password hashed_password w1
    = (Return true, w2) ->
  User.is_verified user = false ->
  AuthConfig.require_email_verification (config self) = true ->
  login self email password w = (Raise EmailNotVerified, w2).
Proof.
  intros H1 Hh H2 Hv Hr. unfold login. run_method. rewrite H1. simpl.
  rewrite Hh, H2. simpl. rewrite Hv, Hr. reflexivity.
Qed.

Lemma login_invalid_hash email password (w w1 : W) user :
  UsersHandler.get_user_by_email (users_handler self) email w
    = (Return (Some user), w1) ->
  User.hashed_password user = None ->
  login self email password w
    = (Raise (HTTPException 500 "Invalid password hash in database"), w1).
Proof.
  intros H1 Hh. unfold login. run_method. rewrite H1. simpl.
  rewrite Hh. reflexivity.
Qed.

Lemma login_verification_fault email password (w w1 w2 : W) user hashed_password e :
  UsersHandler.get_user_by_email (users_handler self) email w
    = (Return (Some user), w1) ->
  User.hashed_password user = Some hashed_password ->
  CryptoProvider.verify_password (crypto_provider self) password hashed_password w1
    = (Raise e, w2) ->
  login self email password w
    = (Raise (HTTPException 500 "Error during password verification"), w2).
Proof.
  intros H1 Hh H2. unfold login. run_method. rewrite H1. simpl.
  rewrite Hh, H2. reflexivity.
Qed.

(** ** [request_password_reset] *)



End Generic.

(** ** The provider over the directory store *)

Section OverStore.
Variable cipher : Model.Cipher.
Variables (require_email_verification : bool) (access_minutes refresh_days : Z).
Local Abbreviation auth :=
  (Model.provider cipher require_email_verification access_minutes refresh_days).
Local Abbreviation W := (World Model.t).

(** [decode_token] reads the store and the clock and changes neither. *)
Lemma store_decode_token token (w : W) :
  decode_token auth token w =
    (if bool_decide (token ∈ Model.blacklist (state w)) then Raise Revoked
     else match Model.verifyToken cipher token with
          | None => Raise Invalid
          | Some (Payload.mk (Some email) (Some token_type) (Some exp)) =>
              match fromtimestamp exp with
              | Return exp_datetime =>
                  if (exp_datetime <? clock w)%Z then Raise Expired
                  else Return (TokenData.mk email token_type exp_datetime)
              | Raise e => Raise e
              end
          | Some _ => Raise MalformedClaims
          end,
     w).
Proof.
  unfold decode_token. run_method. unfold Model.query. simpl.
  destruct (bool_decide (token ∈ Model.blacklist (state w))); [reflexivity|].
  destruct (Model.verifyToken cipher token) as [[[e|] [t|] [x|]]|]; simpl;
    try reflexivity.
  destruct (fromtimestamp x) as [d|e']; [|reflexivity].
  destruct (d <? clock w)%Z; reflexivity.
Qed.

Lemma store_decode_token_blacklisted token (w : W) :
  token ∈ Model.blacklist (state w) ->
  decode_token auth token w = (Raise Revoked, w).
Proof.
  intros H. rewrite store_decode_token, bool_decide_eq_true_2 by exact H.
  reflexivity.
Qed.

(** ** [verify_email] *)

(** C9. [verify_email] fails with InvalidCode when no user id is bound to the
    presented code, leaving the store as it was; when a user id is bound to
    it, the users with that id are marked verified, then the code is deleted,
    and the success message is returned. *)
Theorem verify_email_code email verification_code (w : W) :
  (Model.verification_codes (state w) !! verification_code = None ->
   verify_email auth email verification_code w = (Raise Model.InvalidCode, w))
  /\ (forall user_id,
      Model.verification_codes (state w) !! verification_code = Some user_id ->
      exists w',
        verify_email auth email verification_code w
          = (Return [("message", "Email verified successfully")], w')
        /\ state w' =
             Model.set_verification_codes
               (delete verification_code (Model.verification_codes (state w)))
               (Model.set_users
                  (List.map
                     (fun u => if Pos.eqb (User.id u) user_id
                               then Model.verified u else u)
                     (Model.users (state w)))
                  (state w))
        /\ (forall u, In u (Model.users (state w')) ->
                      User.id u = user_id -> User.is_verified u = true)
        /\ Model.verification_codes (state w') !! verification_code = None).
Proof.
  split.
  - intros H. unfold verify_email. run_method. unfold Model.query.
    cbn [UsersHandler.get_user_id_by_verification_code users_handler
         Model.provider Model.users_handler state].
    rewrite H. reflexivity.
  - intros user_id H. eexists. split; [|split; [|split]].
    + unfold verify_email. run_method. unfold Model.query.
      cbn [UsersHandler.get_user_id_by_verification_code users_handler
           Model.provider Model.users_handler state].
      rewrite H. reflexivity.
    + reflexivity.
    + cbn [state Model.users Model.set_users Model.set_verification_codes].
      intros u Hu Hid. apply in_map_iff in Hu as [u0 [Hu0 _]].
      destruct (Pos.eqb_spec (User.id u0) user_id) as [Heq|Hne].
      * subst u. reflexivity.
      * subst u. contradiction.
    + cbn [state Model.verification_codes Model.set_verification_codes].
      apply lookup_delete_eq.
Qed.

(** ** [refresh_access_token] *)

Lemma store_create_tokens data (w : W) :
  create_access_token auth data w
    = (match datetime_add (clock w) (timedelta_minutes access_minutes) with
       | Return expire =>
           Return (Model.signToken cipher (with_token_type data "access") expire)
       | Raise e => Raise e
       end, w)
  /\ create_refresh_token auth data w
     = (match datetime_add (clock w) (timedelta_days refresh_days) with
        | Return expire =>
            Return (Model.signToken cipher (with_token_type data "refresh") expire)
        | Raise e => Raise e
        end, w).
Proof.
  split.
  - unfold create_access_token. run_method.
    destruct (datetime_add (clock w) (timedelta_minutes access_minutes));
      reflexivity.
  - unfold create_refresh_token. run_method.
    destruct (datetime_add (clock w) (timedelta_days refresh_days));
      reflexivity.
Qed.

Lemma refresh_access_token_single_use_frame refresh_token (w : W) token_data :
  fst (decode_token auth refresh_token w) = Return token_data ->
  (TokenData.token_type token_data <> "refresh" ->
   refresh_access_token auth refresh_token w = (Raise WrongTokenType, w))
  /\ (TokenData.token_type token_data = "refresh" ->
      forall access_expiry refresh_expiry,
        datetime_add (clock w) (timedelta_minutes access_minutes)
          = Return access_expiry ->
        datetime_add (clock w) (timedelta_days refresh_days)
          = Return refresh_expiry ->
        exists w',
          refresh_access_token auth refresh_token w
            = (Return
                 [("access_token",
                   Token.mk
                     (Model.signToken cipher
                        (Payload.mk (Some (TokenData.email token_data))
                                    (Some "access") None)
                        access_expiry)
                     "access");
                  ("refresh_token",
                   Token.mk
                     (Model.signToken cipher
                        (Payload.mk (Some (TokenData.email token_data))
                                    (Some "refresh") None)
                        refresh_expiry)
                     "refresh")],
               w')
          /\ refresh_token ∈ Model.blacklist (state w')).
Proof.
  intros Hd.
  assert (Hd' : decode_token auth refresh_token w = (Return token_data, w)).
  { rewrite store_decode_token in *. simpl in Hd. rewrite Hd. reflexivity. }
  split.
  - intros Hk. unfold refresh_access_token, mbind, M_bind.
    rewrite Hd'. apply String.eqb_neq in Hk. rewrite Hk. reflexivity.
  - intros Hk access_expiry refresh_expiry Ha Hr. eexists. split.
    + unfold refresh_access_token, mbind, M_bind.
      rewrite Hd', Hk. simpl.
      rewrite (proj1 (store_create_tokens _ _)), (proj2 (store_create_tokens _ _)).
      simpl. rewrite Ha, Hr. reflexivity.
    + simpl. set_solver.
Qed.

(** A refresh token is spent even when no pair can be made: with a
    lifetime that takes the expiry out of [datetime]'s range, the string is
    blacklisted and the method ends with [OverflowError]. *)
Lemma refresh_access_token_overflow refresh_token (w : W) token_data :
  fst (decode_token auth refresh_token w) = Return token_data ->
  TokenData.token_type token_data = "refresh" ->
  datetime_add (clock w) (timedelta_minutes access_minutes) = Raise OverflowError ->
  exists w',
    refresh_access_token auth refresh_token w = (Raise OverflowError, w')
    /\ refresh_token ∈ Model.blacklist (state w').
Proof.
  intros Hd Hk Ha.
  assert (Hd' : decode_token auth refresh_token w = (Return token_data, w)).
  { rewrite store_decode_token in *. simpl in Hd. rewrite Hd. reflexivity. }
  eexists. split.
  - unfold refresh_access_token, mbind, M_bind.
    rewrite Hd', Hk. simpl.
    rewrite (proj1 (store_create_tokens _ _)). simpl. rewrite Ha. reflexivity.
  - simpl. set_solver.
Qed.

(** C2. For a string that verifies, [refresh_access_token] fails with
    WrongTokenType when the decoded kind is not [refresh]; when it is, and
    the two lifetimes give expiries that [datetime] can hold, the string is
    put on the blacklist and a pair of tokens is returned, an access and a
    refresh token signed for the subject of the presented one, and a second
    call with the same string fails with Revoked. *)
Theorem refresh_access_token_single_use refresh_token (w : W) token_data :
  fst (decode_token auth refresh_token w) = Return token_data ->
  (TokenData.token_type token_data <> "refresh" ->
   refresh_access_token auth refresh_token w = (Raise WrongTokenType, w))
  /\ (TokenData.token_type token_data = "refresh" ->
      forall access_expiry refresh_expiry,
        datetime_add (clock w) (timedelta_minutes access_minutes)
          = Return access_expiry ->
        datetime_add (clock w) (timedelta_days refresh_days)
          = Return refresh_expiry ->
        exists w',
          refresh_access_token auth refresh_token w
            = (Return
                 [("access_token",
                   Token.mk
                     (Model.signToken cipher
                        (Payload.mk (Some (TokenData.email token_data))
                                    (Some "access") None)
                        access_expiry)
                     "access");
                  ("refresh_token",
                   Token.mk
                     (Model.signToken cipher
                        (Payload.mk (Some (TokenData.email token_data))
                                    (Some "refresh") None)
                        refresh_expiry)
                     "refresh")],
               w')
          /\ refresh_token ∈ Model.blacklist (state w')
          /\ fst (refresh_access_token auth refresh_token w') = Raise Revoked).
Proof.
  intros Hd.
  destruct (refresh_access_token_single_use_frame refresh_token w token_data Hd)
    as [Hw Hr].
  split; [exact Hw|].
  intros Hk access_expiry refresh_expiry Ha Hb.
  destruct (Hr Hk access_expiry refresh_expiry Ha Hb) as (w' & Hrun & Hin).
  exists w'. split; [exact Hrun|]. split; [exact Hin|].
  unfold refresh_access_token, mbind, M_bind.
  rewrite store_decode_token_blacklisted by exact Hin. reflexivity.
Qed.

(** ** Issuing and verifying *)

(** C5. The access token issued for a subject [s] verifies, with kind
    [access] and subject [s], provided the cipher gives back what was signed
    (the data with kind [access], and the expiry), the token is not
    blacklisted, and it is verified while fresh, the clock not having passed
    the expiry it was issued with. *)
Theorem verify_issued_access_token s (w w' : W) token :
  fst (create_access_token auth (data_sub s) w) = Return token ->
  Model.verifyToken cipher
    (Model.signToken cipher (Payload.mk (Some s) (Some "access") None)
       (clock w + timedelta_minutes access_minutes))
    = Some (Payload.mk (Some s) (Some "access")
              (Some (clock w + timedelta_minutes access_minutes))) ->
  token ∉ Model.blacklist (state w') ->
  (clock w' <= clock w + timedelta_minutes access_minutes)%Z ->
  decode_token auth token w'
    = (Return (TokenData.mk s "access"
                 (clock w + timedelta_minutes access_minutes)), w').
Proof.
  intros Hi Hrt Hnb Hle.
  rewrite (proj1 (store_create_tokens _ _)) in Hi. simpl in Hi.
  destruct (datetime_add (clock w) (timedelta_minutes access_minutes))
    as [expire|e] eqn:Ha; [|discriminate].
  injection Hi as <-.
  unfold datetime_add in Ha.
  destruct (timedelta_ok (timedelta_minutes access_minutes)
            && in_datetime_range (clock w + timedelta_minutes access_minutes))
    eqn:Hok; [|discriminate].
  injection Ha as <-. apply andb_true_iff in Hok as [_ Hin].
  rewrite store_decode_token, bool_decide_eq_false_2 by exact Hnb.
  unfold with_token_type, data_sub. simpl Payload.sub. simpl Payload.exp.
  rewrite Hrt. unfold fromtimestamp. cbv zeta. rewrite Hin.
  apply Z.ltb_ge in Hle. rewrite Hle. reflexivity.
Qed.

(** ** The blacklist over time *)

Lemma grows_refl w : Model.grows w w.
Proof. split; [reflexivity | set_solver]. Qed.

Lemma grows_trans w1 w2 w3 : Model.grows w1 w2 -> Model.grows w2 w3 -> Model.grows w1 w3.
Proof. intros [H1 H2] [H3 H4]. split; [congruence | set_solver]. Qed.

Lemma quiet_mret {A} (a : A) : Model.quiet (mret a).
Proof. intros w. apply grows_refl. Qed.

Lemma quiet_raise {A} e : Model.quiet (raise e : M W A).
Proof. intros w. apply grows_refl. Qed.

Lemma quiet_bind {A B} (c : M W A) (k : A -> M W B) :
  Model.quiet c -> (forall a, Model.quiet (k a)) -> Model.quiet (c ≫= k).
Proof.
  intros Hc Hk w. unfold mbind, M_bind.
  specialize (Hc w). destruct (c w) as [[a|e] w1]; simpl in *.
  - eapply grows_trans; [exact Hc | apply Hk].
  - exact Hc.
Qed.

Lemma quiet_try_except_R2RException {A} (c : M W A) h :
  Model.quiet c -> (forall status_code message, Model.quiet (h status_code message)) ->
  Model.quiet (try_except_R2RException c h).
Proof.
  intros Hc Hh w. unfold try_except_R2RException.
  specialize (Hc w). destruct (c w) as [[a|e] w1]; simpl in *; [exact Hc|].
  destruct e; try exact Hc.
  eapply grows_trans; [exact Hc | apply Hh].
Qed.

Lemma quiet_try_except_ValueError {A} (c h : M W A) :
  Model.quiet c -> Model.quiet h -> Model.quiet (try_except_ValueError c h).
Proof.
  intros Hc Hh w. unfold try_except_ValueError.
  specialize (Hc w). destruct (c w) as [[a|e] w1]; simpl in *; [exact Hc|].
  destruct e; try exact Hc.
  eapply grows_trans; [exact Hc | apply Hh].
Qed.

Lemma quiet_try_except_Exception {A} (c : M W A) h :
  Model.quiet c -> (forall e, Model.quiet (h e)) -> Model.quiet (try_except_Exception c h).
Proof.
  intros Hc Hh w. unfold try_except_Exception.
  specialize (Hc w). destruct (c w) as [[a|e] w1]; simpl in *; [exact Hc|].
  eapply grows_trans; [exact Hc | apply Hh].
Qed.

Lemma quiet_query {A} (f : W -> result A) : Model.quiet (Model.query f).
Proof. intros w. apply grows_refl. Qed.

Lemma quiet_update (f : W -> Model.t) :
  (forall w, Model.blacklist (state w) ⊆ Model.blacklist (f w)) ->
  Model.quiet (Model.update f).
Proof. intros H w. split; [reflexivity | apply H]. Qed.

Lemma quiet_datetime_now : Model.quiet (datetime_now : M W datetime).
Proof. intros w. apply grows_refl. Qed.

Ltac intro_arguments :=
  repeat (let x := fresh "x" in
          intro x;
          lazymatch type of x with
          | World _ => fail
          | _ => idtac
          end).

Lemma quiet_is_token_blacklisted token :
  Model.quiet (TokenHandler.is_token_blacklisted (token_handler auth) token).
Proof. apply quiet_query. Qed.

Lemma quiet_blacklist_token token :
  Model.quiet (TokenHandler.blacklist_token (token_handler auth) token).
Proof. apply quiet_update. intros w. simpl. set_solver. Qed.

Lemma quiet_users_handler :
  (forall email,
      Model.quiet (UsersHandler.get_user_by_email (users_handler auth) email))
  /\ (forall id, Model.quiet (UsersHandler.get_user_by_id (users_handler auth) id))
  /\ (forall key_id,
      Model.quiet (UsersHandler.get_api_key_record (users_handler auth) key_id))
  /\ (forall code,
      Model.quiet (UsersHandler.get_user_id_by_verification_code (users_handler auth) code))
  /\ (forall id,
      Model.quiet (UsersHandler.mark_user_as_verified (users_handler auth) id))
  /\ (forall code,
      Model.quiet (UsersHandler.remove_verification_code (users_handler auth) code))
  /\ (forall id reset_token expiry,
      Model.quiet (UsersHandler.store_reset_token (users_handler auth) id reset_token expiry)).
Proof.
  repeat apply conj; intro_arguments; try apply quiet_query;
    apply quiet_update; intros w; simpl; set_solver.
Qed.

Lemma quiet_crypto_provider :
  (forall data expiry,
      Model.quiet (CryptoProvider.generate_secure_token (crypto_provider auth) data expiry))
  /\ (forall token,
      Model.quiet (CryptoProvider.verify_secure_token (crypto_provider auth) token))
  /\ (forall plain hashed,
      Model.quiet (CryptoProvider.verify_password (crypto_provider auth) plain hashed))
  /\ (forall raw hashed,
      Model.quiet (CryptoProvider.verify_api_key (crypto_provider auth) raw hashed))
  /\ Model.quiet (CryptoProvider.generate_verification_code (crypto_provider auth)).
Proof.
  repeat apply conj; intro_arguments; try apply quiet_query.
  intros w. split; [reflexivity | simpl; set_solver].
Qed.

Lemma quiet_send_password_reset_email to_email reset_token first_name :
  Model.quiet (EmailProvider.send_password_reset_email (email_provider auth)
           to_email reset_token first_name).
Proof. apply quiet_update. intros w. simpl. set_solver. Qed.

Ltac quiet_method :=
  let Hu := fresh "Hu" in
  let Hc := fresh "Hc" in
  pose proof quiet_users_handler as Hu;
  pose proof quiet_crypto_provider as Hc;
  destruct Hu as (? & ? & ? & ? & ? & ? & ?);
  destruct Hc as (? & ? & ? & ? & ?);
  cbv zeta;
  repeat first
    [ assumption
    | apply quiet_mret
    | apply quiet_raise
    | apply quiet_datetime_now
    | apply quiet_is_token_blacklisted
    | apply quiet_blacklist_token
    | apply quiet_send_password_reset_email
    | match goal with H : forall _, Model.quiet _ |- _ => apply H end
    | match goal with H : forall _ _, Model.quiet _ |- _ => apply H end
    | match goal with H : forall _ _ _, Model.quiet _ |- _ => apply H end
    | apply quiet_bind; [|intros ?; cbv beta zeta]
    | apply quiet_try_except_R2RException; [|intros ? ?; cbv beta zeta]
    | apply quiet_try_except_ValueError
    | apply quiet_try_except_Exception; [|intros ?; cbv beta zeta]
    | match goal with
      | |- Model.quiet (match ?x with _ => _ end) => destruct x
      end ].

Lemma quiet_create_access_token data : Model.quiet (create_access_token auth data).
Proof. unfold create_access_token. quiet_method. Qed.

Lemma quiet_create_refresh_token data : Model.quiet (create_refresh_token auth data).
Proof. unfold create_refresh_token. quiet_method. Qed.

Lemma quiet_decode_token token : Model.quiet (decode_token auth token).
Proof. unfold decode_token. quiet_method. Qed.

Lemma quiet_authenticate_api_key api_key :
  Model.quiet (authenticate_api_key auth api_key).
Proof. unfold authenticate_api_key, unpack_2. quiet_method. Qed.

Lemma quiet_user token : Model.quiet (user auth token).
Proof.
  pose proof quiet_decode_token. pose proof quiet_authenticate_api_key.
  unfold user. quiet_method.
Qed.

Lemma quiet_verify_email email code : Model.quiet (verify_email auth email code).
Proof. unfold verify_email. quiet_method. Qed.

Lemma quiet_login email password : Model.quiet (login auth email password).
Proof.
  pose proof quiet_create_access_token. pose proof quiet_create_refresh_token.
  unfold login. quiet_method.
Qed.

Lemma quiet_refresh_access_token token :
  Model.quiet (refresh_access_token auth token).
Proof.
  pose proof quiet_create_access_token. pose proof quiet_create_refresh_token.
  pose proof quiet_decode_token.
  unfold refresh_access_token. quiet_method.
Qed.

Lemma quiet_request_password_reset email :
  Model.quiet (request_password_reset auth email).
Proof. unfold request_password_reset. quiet_method. Qed.

Lemma quiet_logout token : Model.quiet (logout auth token).
Proof. unfold logout. quiet_method. Qed.

(** Every call but the sweep leaves the clock alone, or only moves it, and
    loses no blacklist entry. *)
Lemma step_keeps_blacklist c (w : W) :
  is_sweep c = false ->
  Model.blacklist (state w) ⊆ Model.blacklist (state (step auth c w)).
Proof.
  intros Hc. destruct c; try discriminate; unfold step, after;
    try (apply quiet_decode_token || apply quiet_authenticate_api_key
         || apply quiet_user || apply quiet_verify_email || apply quiet_login
         || apply quiet_refresh_access_token
         || apply quiet_request_password_reset || apply quiet_logout).
  simpl. set_solver.
Qed.

Lemma step_keeps_clock c (w : W) :
  (forall delta, c <> Elapse delta) -> clock (step auth c w) = clock w.
Proof.
  intros Hc. destruct c; unfold step, after;
    try (apply quiet_decode_token || apply quiet_authenticate_api_key
         || apply quiet_user || apply quiet_verify_email || apply quiet_login
         || apply quiet_refresh_access_token
         || apply quiet_request_password_reset || apply quiet_logout).
  - reflexivity.
  - exfalso. eapply Hc. reflexivity.
Qed.

Lemma run_keeps_blacklist cs (w : W) :
  forallb (fun c => negb (is_sweep c)) cs = true ->
  Model.blacklist (state w) ⊆ Model.blacklist (state (run auth cs w)).
Proof.
  revert w. induction cs as [|c cs IH]; intros w H; simpl in *.
  - set_solver.
  - apply andb_true_iff in H as [Hc Hcs]. apply negb_true_iff in Hc.
    etransitivity; [apply (step_keeps_blacklist c w Hc) | apply IH, Hcs].
Qed.

Lemma past_expiry_later token now now' :
  (now <= now')%Z ->
  Model.past_expiry cipher now token = true ->
  Model.past_expiry cipher now' token = true.
Proof.
  unfold Model.past_expiry. intros Hle.
  destruct (Model.verifyToken cipher token) as [payload|]; [|discriminate].
  destruct (Payload.exp payload) as [exp|]; [|discriminate].
  destruct (fromtimestamp exp) as [exp_datetime|e]; [|discriminate].
  intros H. apply Z.ltb_lt in H. apply Z.ltb_lt. lia.
Qed.

Lemma step_keeps_dead token c (w : W) :
  forward c = true -> Model.dead cipher token w -> Model.dead cipher token (step auth c w).
Proof.
  intros Hf Hd.
  destruct (is_sweep c) eqn:Hs.
  - destruct c; try discriminate. unfold step, after, Model.dead. simpl.
    destruct (Model.past_expiry cipher (clock w) token) eqn:Hp;
      [right; reflexivity|].
    destruct Hd as [Hd|Hd]; [|congruence].
    left. apply elem_of_filter. split; assumption.
  - destruct Hd as [Hd|Hd].
    + left. apply (step_keeps_blacklist c w Hs), Hd.
    + right. destruct c; try (rewrite step_keeps_clock; [exact Hd | discriminate]).
      simpl in *. apply Z.leb_le in Hf.
      apply (past_expiry_later token (clock w)); [lia | exact Hd].
Qed.

Lemma run_keeps_dead token cs (w : W) :
  forallb forward cs = true -> Model.dead cipher token w -> Model.dead cipher token (run auth cs w).
Proof.
  revert w. induction cs as [|c cs IH]; intros w H Hd; simpl in *; [exact Hd|].
  apply andb_true_iff in H as [Hc Hcs].
  apply IH; [exact Hcs | apply step_keeps_dead; assumption].
Qed.

Lemma decode_token_dead token (w : W) :
  Model.dead cipher token w ->
  exists e, fst (decode_token auth token w) = Raise e
            /\ (e = Revoked \/ e = MalformedClaims \/ e = Expired).
Proof.
  intros Hd. rewrite store_decode_token. simpl.
  destruct (bool_decide (token ∈ Model.blacklist (state w))) eqn:Hb;
    [eauto|].
  destruct Hd as [Hd|Hd];
    [apply bool_decide_eq_false in Hb; contradiction|].
  unfold Model.past_expiry in Hd.
  destruct (Model.verifyToken cipher token) as [[s t [x|]]|]; try discriminate.
  simpl in Hd.
  destruct (fromtimestamp x) as [exp_datetime|e]; [|discriminate].
  rewrite Hd. destruct s, t; eauto.
Qed.

Lemma logout_blacklists token (w : W) :
  token ∈ Model.blacklist (state (after (logout auth token) w)).
Proof. unfold after, logout. run_method. set_solver. Qed.

(** C3, as amended. Once [logout] has been called on a token string, every
    later [decode_token] of it fails with Revoked, whatever calls are made in
    between and however the clock moves, as long as the maintenance sweep
    [clean_expired_blacklisted_tokens] is not among them; with the sweep
    among them and a clock that does not go backwards, every later
    [decode_token] of it still fails, with Revoked, MalformedClaims or
    Expired. *)
Theorem revoked_token_stays_rejected token cs (w : W) :
  (forallb (fun c => negb (is_sweep c)) cs = true ->
   fst (decode_token auth token (run auth cs (after (logout auth token) w)))
     = Raise Revoked)
  /\ (forallb forward cs = true ->
      exists e,
        fst (decode_token auth token (run auth cs (after (logout auth token) w)))
          = Raise e
        /\ (e = Revoked \/ e = MalformedClaims \/ e = Expired)).
Proof.
  split; intros H.
  - rewrite store_decode_token_blacklisted; [reflexivity|].
    apply (run_keeps_blacklist cs _ H), logout_blacklists.
  - apply decode_token_dead, run_keeps_dead; [exact H|].
    left. apply logout_blacklists.
Qed.

(** A refresh token that has been used stays unusable, whatever is called
    afterwards, the sweep apart. *)
Lemma refresh_access_token_replay_rejected refresh_token cs (w : W) token_data :
  fst (decode_token auth refresh_token w) = Return token_data ->
  TokenData.token_type token_data = "refresh" ->
  forallb (fun c => negb (is_sweep c)) cs = true ->
  fst (refresh_access_token auth refresh_token
         (run auth cs (after (refresh_access_token auth refresh_token) w)))
    = Raise Revoked.
Proof.
  intros Hd Hk Hcs.
  assert (Hd' : decode_token auth refresh_token w = (Return token_data, w)).
  { rewrite store_decode_token in *. simpl in Hd. rewrite Hd. reflexivity. }
  assert (Hin : refresh_token
                ∈ Model.blacklist
                    (state (after (refresh_access_token auth refresh_token) w))).
  { unfold after, refresh_access_token. unfold mbind at 1, M_bind at 1.
    rewrite Hd', Hk.
    change (negb (String.eqb "refresh" "refresh")) with false.
    unfold mbind at 1, M_bind at 1. cbv iota beta.
    change (TokenHandler.blacklist_token (token_handler auth) refresh_token w)
      with (Return tt,
            mkWorld (clock w)
              (Model.set_blacklist
                 ({[refresh_token]} ∪ Model.blacklist (state w)) (state w))).
    cbv iota beta.
    match goal with
    | |- _ ∈ Model.blacklist (state (snd (?c ?w2))) =>
        assert (Hq : Model.quiet c)
    end.
    { pose proof quiet_create_access_token.
      pose proof quiet_create_refresh_token. quiet_method. }
    apply (proj2 (Hq _)). simpl. set_solver. }
  unfold refresh_access_token at 1. unfold mbind at 1, M_bind at 1.
  rewrite store_decode_token_blacklisted; [reflexivity|].
  apply (run_keeps_blacklist cs _ Hcs), Hin.
Qed.

End OverStore.

(** * The properties on the sample deployment *)


Lemma decode_token_expiry_boundary_witness :
  clock Sample.world = 1000%Z
  /\ decode_token Sample.auth "jwt.access.alice" Sample.world
     = (Return (TokenData.mk "alice@x.com" "access" 1000), Sample.world)
  /\ decode_token Sample.auth "jwt.access.old" Sample.world
     = (Raise Expired, Sample.world)
  /\ exists exp_datetime,
      fromtimestamp 10 = Return exp_datetime
      /\ (exp_datetime < clock Sample.world)%Z.
Proof.
  split; [reflexivity|]. repeat apply conj.
  - destruct (decode_token_expiry_boundary Sample.auth "jwt.access.alice"
                Sample.world Sample.world Sample.world
                "alice@x.com" "access" 1000 eq_refl eq_refl) as (_ & _ & H).
    apply (H 1000%Z); reflexivity.
  - destruct (decode_token_expiry_boundary Sample.auth "jwt.access.old"
                Sample.world Sample.world Sample.world
                "alice@x.com" "access" 10 eq_refl eq_refl) as (_ & H & _).
    apply (H 10%Z); reflexivity.
  - destruct (decode_token_expiry_boundary Sample.auth "jwt.access.old"
                Sample.world Sample.world Sample.world
                "alice@x.com" "access" 10 eq_refl eq_refl) as (H & _ & _).
    apply H. vm_compute. reflexivity.
Defined.

Lemma authenticate_api_key_failures_witness :
  authenticate_api_key Sample.auth "nodots" Sample.world
    = (Raise InvalidFormat, Sample.world)
  /\ authenticate_api_key Sample.auth "pk_nobody.sk_alice" Sample.world
    = (Raise InvalidKey, Sample.world)
  /\ authenticate_api_key Sample.auth "pk_alice.sk_wrong" Sample.world
    = (Raise InvalidKey, Sample.world)
  /\ authenticate_api_key Sample.auth "pk_bob.sk_bob" Sample.world
    = (Raise InactiveAccount, Sample.world)
  /\ authenticate_api_key Sample.auth "pk_alice.sk_alice" Sample.world
    = (Return Sample.alice, Sample.world).
Proof.
  destruct (authenticate_api_key_failures Sample.auth) as (H1 & H2 & H3 & H4).
  repeat apply conj.
  - apply H1. reflexivity.
  - apply (H2 "pk_nobody" "sk_alice"); reflexivity.
  - apply (H3 "pk_alice" "sk_wrong" Sample.world Sample.world Sample.world
              (ApiKeyRecord.mk "h(sk_alice)" 1%positive)); reflexivity.
  - apply (H4 "pk_bob" "sk_bob" Sample.world Sample.world Sample.world
              Sample.world (ApiKeyRecord.mk "h(sk_bob)" 2%positive) Sample.bob);
      reflexivity.
  - apply (H4 "pk_alice" "sk_alice" Sample.world Sample.world Sample.world
              Sample.world (ApiKeyRecord.mk "h(sk_alice)" 1%positive)
              Sample.alice);
      reflexivity.
Defined.

Lemma user_falls_back_to_api_key_witness :
  user Sample.auth "Bearer pk_bob.sk_bob" Sample.world
    = authenticate_api_key Sample.auth "pk_bob.sk_bob" Sample.world
  /\ user Sample.auth "Bearer pk_bob.sk_bob" Sample.world
    = (Raise InactiveAccount, Sample.world).
Proof.
  destruct (user_falls_back_to_api_key Sample.auth "Bearer pk_bob.sk_bob"
              Sample.world Sample.world 401 "Invalid or expired token")
    as [H1 H2]; [reflexivity|].
  split; [exact H1 | apply H2; reflexivity].
Defined.

(** Both attempts fail on these two strings, and [user] ends with the API
    key failure of each, not with InvalidCredentials: the claim C1 does not
    hold as stated. *)
Lemma user_failure_is_the_api_key_failure :
  (fst (decode_token Sample.auth "nodots" Sample.world) = Raise Invalid
   /\ fst (authenticate_api_key Sample.auth "nodots" Sample.world)
      = Raise InvalidFormat
   /\ fst (user Sample.auth "nodots" Sample.world) = Raise InvalidFormat
   /\ fst (user Sample.auth "nodots" Sample.world) <> Raise InvalidCredentials)
  /\ (fst (decode_token Sample.auth "jwt.access.old" Sample.world) = Raise Expired
      /\ fst (authenticate_api_key Sample.auth "jwt.access.old" Sample.world)
         = Raise InvalidKey
      /\ fst (user Sample.auth "jwt.access.old" Sample.world) = Raise InvalidKey
      /\ fst (user Sample.auth "jwt.access.old" Sample.world)
         <> Raise InvalidCredentials).
Proof. repeat apply conj; try reflexivity; discriminate. Qed.



Lemma verify_email_code_witness :
  verify_email Sample.auth "carol@x.com" "000000" Sample.world
    = (Raise Model.InvalidCode, Sample.world)
  /\ exists w',
      verify_email Sample.auth "carol@x.com" "123456" Sample.world
        = (Return [("message", "Email verified successfully")], w')
      /\ Model.verification_codes (state w') !! "123456" = None.
Proof.
  split.
  - apply (proj1 (verify_email_code Sample.cipher true
                    DEFAULT_ACCESS_LIFETIME_IN_MINUTES
                    DEFAULT_REFRESH_LIFETIME_IN_DAYS
                    "carol@x.com" "000000" Sample.world)).
    reflexivity.
  - destruct (proj2 (verify_email_code Sample.cipher true
                       DEFAULT_ACCESS_LIFETIME_IN_MINUTES
                       DEFAULT_REFRESH_LIFETIME_IN_DAYS
                       "carol@x.com" "123456" Sample.world) 3%positive eq_refl)
      as (w' & H1 & _ & _ & H4).
    exists w'. split; assumption.
Defined.

Lemma refresh_access_token_single_use_witness :
  refresh_access_token Sample.auth "jwt.access.alice" Sample.world
    = (Raise WrongTokenType, Sample.world)
  /\ exists w',
      refresh_access_token Sample.auth "jwt.refresh.alice" Sample.world
        = (Return [("access_token", Token.mk "jwt.access.new" "access");
                   ("refresh_token", Token.mk "jwt.refresh.new" "refresh")], w')
      /\ fst (refresh_access_token Sample.auth "jwt.refresh.alice" w')
         = Raise Revoked.
Proof.
  split.
  - apply (proj1 (refresh_access_token_single_use Sample.cipher true
                    DEFAULT_ACCESS_LIFETIME_IN_MINUTES
                    DEFAULT_REFRESH_LIFETIME_IN_DAYS
                    "jwt.access.alice" Sample.world
                    (TokenData.mk "alice@x.com" "access" 1000) eq_refl)).
    discriminate.
  - destruct (proj2 (refresh_access_token_single_use Sample.cipher true
                       DEFAULT_ACCESS_LIFETIME_IN_MINUTES
                       DEFAULT_REFRESH_LIFETIME_IN_DAYS
                       "jwt.refresh.alice" Sample.world
                       (TokenData.mk "alice@x.com" "refresh" 5000) eq_refl)
                eq_refl
                (1000 + timedelta_minutes 3600)%Z (1000 + timedelta_days 7)%Z
                ltac:(vm_compute; reflexivity) ltac:(vm_compute; reflexivity))
      as (w' & H1 & _ & H3).
    exists w'. split; [exact H1 | exact H3].
Defined.

Lemma verify_issued_access_token_witness :
  decode_token Sample.auth "jwt.access.new"
    (mkWorld (1000 + timedelta_minutes 60) Sample.store)
  = (Return (TokenData.mk "alice@x.com" "access"
               (1000 + timedelta_minutes 3600)),
     mkWorld (1000 + timedelta_minutes 60) Sample.store).
Proof.
  apply (verify_issued_access_token Sample.cipher true
           DEFAULT_ACCESS_LIFETIME_IN_MINUTES DEFAULT_REFRESH_LIFETIME_IN_DAYS
           "alice@x.com" Sample.world
           (mkWorld (1000 + timedelta_minutes 60) Sample.store)
           "jwt.access.new").
  - vm_compute. reflexivity.
  - vm_compute. reflexivity.
  - apply (bool_decide_eq_false_1 _). vm_compute. reflexivity.
  - vm_compute. discriminate.
Defined.

Lemma revoked_token_stays_rejected_witness :
  fst (decode_token Sample.auth "jwt.access.ghost"
         (run Sample.auth
            [Login "alice@x.com" "pw1"; Decode_token "jwt.access.ghost";
             Elapse 60; Refresh_access_token "jwt.refresh.alice";
             Logout "jwt.access.alice"; Elapse (-5)]
            (after (logout Sample.auth "jwt.access.ghost") Sample.world)))
    = Raise Revoked
  /\ exists e,
      fst (decode_token Sample.auth "jwt.access.ghost"
             (run Sample.auth
                [Elapse 4500; Clean_expired_blacklisted_tokens;
                 Decode_token "jwt.access.ghost"]
                (after (logout Sample.auth "jwt.access.ghost") Sample.world)))
        = Raise e
      /\ (e = Revoked \/ e = MalformedClaims \/ e = Expired).
Proof.
  split.
  - apply (proj1 (revoked_token_stays_rejected Sample.cipher true
                    DEFAULT_ACCESS_LIFETIME_IN_MINUTES
                    DEFAULT_REFRESH_LIFETIME_IN_DAYS
                    "jwt.access.ghost" _ Sample.world)).
    vm_compute. reflexivity.
  - apply (proj2 (revoked_token_stays_rejected Sample.cipher true
                    DEFAULT_ACCESS_LIFETIME_IN_MINUTES
                    DEFAULT_REFRESH_LIFETIME_IN_DAYS
                    "jwt.access.ghost" _ Sample.world)).
    vm_compute. reflexivity.
Defined.

(** After [logout], one microsecond and the sweep, the token is off the
    blacklist and [decode_token] fails with Expired, not Revoked: the claim
    C3 does not hold as stated. *)
Lemma sweep_forgets_revocation :
  fst (TokenHandler.is_token_blacklisted (token_handler Sample.auth)
         "jwt.access.alice"
         (after (logout Sample.auth "jwt.access.alice") Sample.world))
    = Return true
  /\ fst (TokenHandler.is_token_blacklisted (token_handler Sample.auth)
            "jwt.access.alice"
            (run Sample.auth [Elapse 1; Clean_expired_blacklisted_tokens]
               (after (logout Sample.auth "jwt.access.alice") Sample.world)))
     = Return false
  /\ fst (decode_token Sample.auth "jwt.access.alice"
            (run Sample.auth [Elapse 1; Clean_expired_blacklisted_tokens]
               (after (logout Sample.auth "jwt.access.alice") Sample.world)))
     = Raise Expired
  /\ fst (decode_token Sample.auth "jwt.access.alice"
            (run Sample.auth [Elapse 1; Clean_expired_blacklisted_tokens]
               (after (logout Sample.auth "jwt.access.alice") Sample.world)))
     <> Raise Revoked.
Proof. repeat apply conj; vm_compute; try reflexivity; discriminate. Qed.

(** C7, at the input on which the code departs from it. For an email no
    user has, [login] ends with the store's "not found" failure, which it
    lets through as it is; for the email of a user and a wrong password it
    ends with "Incorrect email or password".  The two failures differ, in
    status code and in message. *)
Theorem login_reveals_unknown_email :
  fst (login Sample.auth "nobody@x.com" "pw1" Sample.world)
    = Raise (R2RException 404 "User not found")
  /\ fst (login Sample.auth "alice@x.com" "pw2" Sample.world)
    = Raise (R2RException 401 "Incorrect email or password")
  /\ fst (login Sample.auth "nobody@x.com" "pw1" Sample.world)
     <> fst (login Sample.auth "alice@x.com" "pw2" Sample.world).
Proof. repeat apply conj; vm_compute; try reflexivity; discriminate. Qed.

(** * Further properties of the methods *)

(** ** Strings *)

Lemma split_1_occurs sep s a b : split_1 sep s = [a; b] -> occurs sep s = true.
Proof.
  intros H. destruct (occurs sep s) eqn:E; [reflexivity|].
  rewrite (split_1_absent _ _ E) in H. discriminate.
Qed.

(** [s.split(sep, 1)] gives one part or two; two parts are what lies before
    and after the first [sep], so joining them with [sep] gives [s] back. *)
Theorem split_1_parts sep s :
  (occurs sep s = false /\ split_1 sep s = [s])
  \/ (exists a b,
        split_1 sep s = [a; b] /\ s = a ++ String sep b
        /\ occurs sep a = false).
Proof.
  induction s as [|c s IH]; simpl.
  - left. split; reflexivity.
  - destruct (Ascii.eqb_spec c sep) as [->|Hne].
    + right. exists EmptyString, s. repeat split.
    + destruct IH as [[Ho Hs]|(a & b & Hs & -> & Ha)].
      * left. rewrite Hs, Ho. split; reflexivity.
      * right. exists (String c a), b. rewrite Hs. simpl.
        apply Ascii.eqb_neq in Hne. rewrite Hne, Ha. repeat split.
Qed.

Lemma prefix_app a b : String.prefix a (a ++ b) = true.
Proof.
  induction a as [|c a IH]; simpl.
  - destruct b; reflexivity.
  - destruct (ascii_dec c c); [exact IH | contradiction].
Qed.

Lemma prefix_refl s : String.prefix s s = true.
Proof.
  induction s as [|c s IH]; simpl; [reflexivity|].
  destruct (ascii_dec c c); [exact IH | contradiction].
Qed.

Lemma substring_all s : String.substring 0 (String.length s) s = s.
Proof. induction s as [|c s IH]; simpl; [reflexivity | rewrite IH; reflexivity]. Qed.

Lemma substring_app_drop a b :
  String.substring (String.length a) (String.length b) (a ++ b) = b.
Proof. induction a as [|c a IH]; simpl; [apply substring_all | exact IH]. Qed.

Lemma app_assoc_string (a b c : string) : (a ++ b) ++ c = a ++ (b ++ c).
Proof.
  induction a as [|x a IH]; [reflexivity|].
  change (String x ((a ++ b) ++ c) = String x (a ++ (b ++ c))).
  f_equal. exact IH.
Qed.

Lemma length_app a b :
  String.length (a ++ b) = (String.length a + String.length b)%nat.
Proof. induction a as [|c a IH]; simpl; [reflexivity | rewrite IH; reflexivity]. Qed.

(** [s.split(sep)[0]] is the part of [s] before the first [sep]: it holds
    no [sep] and [s] starts with it. *)
Theorem split_0_before_separator sep s :
  occurs sep (split_0 sep s) = false
  /\ String.prefix (split_0 sep s) s = true.
Proof.
  unfold split_0.
  destruct (split_1_parts sep s) as [[Ho Hs]|(a & b & Hs & -> & Ha)].
  - rewrite Hs. split; [exact Ho | apply prefix_refl].
  - rewrite Hs. split; [exact Ha | apply prefix_app].
Qed.

(** [removeprefix] takes a leading [p] off, once, and leaves a string
    that does not start with [p] as it is. *)
Theorem removeprefix_strips p s :
  removeprefix p (p ++ s) = s
  /\ (forall t, String.prefix p t = false -> removeprefix p t = t).
Proof.
  split.
  - unfold removeprefix. rewrite prefix_app, length_app.
    replace (String.length p + String.length s - String.length p)%nat
      with (String.length s) by lia.
    apply substring_app_drop.
  - intros t H. unfold removeprefix. rewrite H. reflexivity.
Qed.

(** ** What a successful call implies *)

Ltac unfold_run H :=
  unfold mbind, M_bind, mret, M_ret, raise, of_result, datetime_now,
    try_except_ValueError, try_except_R2RException, try_except_Exception in H.

Ltac case_run H :=
  repeat match type of H with
  | context [match ?x with _ => _ end] =>
      assert_fails
        (idtac; lazymatch x with
                | context [match _ with _ => _ end] => idtac
                end);
      let E := fresh "E" in
      destruct x eqn:E; simpl in H; try discriminate
  end.

Section Outcomes.
Context {S : Type}.
Variable self : R2RAuthProvider S.
Variable rest : Rest.t S.
Local Abbreviation W := (World S).

(** Whatever the collaborators do, claims that [decode_token] returns come
    from a string the blacklist lookup reported as not blacklisted, and their
    expiry is not earlier than the clock. *)
Theorem decode_token_returns_live token (w w' : W) token_data :
  decode_token self token w = (Return token_data, w') ->
  (exists w1,
      TokenHandler.is_token_blacklisted (token_handler self) token w
        = (Return false, w1))
  /\ (clock w' <= TokenData.exp token_data)%Z.
Proof.
  intros H. unfold decode_token in H. unfold_run H. case_run H.
  injection H as <- <-. split; [eauto|].
  simpl. apply Z.ltb_ge. assumption.
Qed.

(** Whatever the collaborators do, a user that [authenticate_api_key]
    returns is active, and the key it was given holds a [.]. *)
Theorem authenticate_api_key_returns_active api_key (w w' : W) user :
  authenticate_api_key self api_key w = (Return user, w') ->
  User.is_active user = true /\ occurs "." api_key = true.
Proof.
  intros H. unfold authenticate_api_key, unpack_2 in H. unfold_run H.
  destruct (split_1 "." api_key) as [|key_id [|raw_key [|x l]]] eqn:Hs;
    simpl in H; try discriminate.
  case_run H. injection H as <- <-.
  split; [|exact (split_1_occurs _ _ _ _ Hs)].
  match goal with E : negb (User.is_active _) = false |- _ =>
    apply negb_false_iff in E; exact E end.
Qed.

(** Whatever the collaborators do, an [R2RException] that [user] ends with
    is one the API key attempt ended with: none of the failures of the token
    attempt, nor the two raised inside [user], reaches the caller. *)
Theorem user_failure_comes_from_api_key token (w w' : W) status_code message :
  user self token w = (Raise (R2RException status_code message), w') ->
  exists w1,
    authenticate_api_key self (removeprefix "Bearer " token) w1
      = (Raise (R2RException status_code message), w').
Proof.
  intros H. unfold user in H.
  unfold try_except_R2RException at 1 in H.
  match type of H with
  | context [match ?x with _ => _ end] => destruct x as [[u|e] w1] eqn:E
  end; [discriminate|].
  destruct e; try discriminate. eauto.
Qed.

(** An exception of the token attempt that is not an [R2RException] ends
    [user] at once: the API key is not tried. *)
Theorem user_lets_other_faults_through token (w w1 : W) e :
  decode_token self token w = (Raise e, w1) ->
  (forall status_code message, e <> R2RException status_code message) ->
  user self token w = (Raise e, w1).
Proof.
  intros H He. unfold user, try_except_R2RException, mbind, M_bind.
  rewrite H. destruct e; try reflexivity. exfalso. eapply He. reflexivity.
Qed.

(** Through a token, [user] returns the user of the subject without looking
    at [is_active]; [get_current_active_user] is what refuses an inactive
    one, with status 400. *)
Theorem user_by_token_skips_activity_check token (w w1 w2 : W) token_data u :
  decode_token self token w = (Return token_data, w1) ->
  truthy (TokenData.email token_data) = true ->
  UsersHandler.get_user_by_email (users_handler self)
    (TokenData.email token_data) w1 = (Return (Some u), w2) ->
  user self token w = (Return u, w2)
  /\ (User.is_active u = false ->
      get_current_active_user u = Raise (R2RException 400 "Inactive user")).
Proof.
  intros H1 Ht H2. split.
  - unfold user, try_except_R2RException, mbind, M_bind.
    rewrite H1, Ht. simpl. rewrite H2. reflexivity.
  - intros Hi. unfold get_current_active_user. rewrite Hi. reflexivity.
Qed.

(** A user that came through an API key always passes
    [get_current_active_user]. *)
Theorem api_key_user_passes_activity_check api_key (w w' : W) u :
  authenticate_api_key self api_key w = (Return u, w') ->
  get_current_active_user u = Return u.
Proof.
  intros H. apply authenticate_api_key_returns_active in H as [Ha _].
  unfold get_current_active_user. rewrite Ha. reflexivity.
Qed.

(** Whatever the collaborators do, [login] returns tokens only after the
    cipher has accepted the password against the stored hash, and, where
    verification is required, only for a verified user. *)
Theorem login_returns_after_password_check email password (w w' : W) tokens :
  login self email password w = (Return tokens, w') ->
  exists u hashed_password w1 w2,
    UsersHandler.get_user_by_email (users_handler self) email w
      = (Return (Some u), w1)
    /\ User.hashed_password u = Some hashed_password
    /\ CryptoProvider.verify_password (crypto_provider self) password
         hashed_password w1 = (Return true, w2)
    /\ (User.is_verified u = true
        \/ AuthConfig.require_email_verification (config self) = false).
Proof.
  intros H. unfold login in H. unfold_run H.
  destruct (UsersHandler.get_user_by_email (users_handler self) email w)
    as [[[u|]|e] w1] eqn:E1; simpl in H; try discriminate.
  destruct (User.hashed_password u) as [hp|] eqn:Eh; simpl in H;
    try discriminate.
  destruct (CryptoProvider.verify_password (crypto_provider self) password hp w1)
    as [[[|]|e] w2] eqn:E2; simpl in H; try discriminate.
  exists u, hp, w1, w2. repeat split; try assumption.
  destruct (User.is_verified u); [left; reflexivity|].
  destruct (AuthConfig.require_email_verification (config self));
    [discriminate | right; reflexivity].
Qed.

(** [login] does not look at [is_active]: with the right password, and
    verified where that is required, a user gets a pair of tokens, signed
    for the stored email, whether active or not. *)
Theorem login_ignores_activity email password (w w1 w2 w3 w4 : W) u
    hashed_password access_token refresh_token :
  UsersHandler.get_user_by_email (users_handler self) email w
    = (Return (Some u), w1) ->
  User.hashed_password u = Some hashed_password ->
  CryptoProvider.verify_password (crypto_provider self) password
    hashed_password w1 = (Return true, w2) ->
  User.is_verified u = true
    \/ AuthConfig.require_email_verification (config self) = false ->
  create_access_token self (data_sub (User.email u)) w2
    = (Return access_token, w3) ->
  create_refresh_token self (data_sub (User.email u)) w3
    = (Return refresh_token, w4) ->
  login self email password w
    = (Return (token_dict access_token refresh_token), w4).
Proof.
  intros H1 Hh H2 Hv H3 H4. unfold login.
  unfold mbind, M_bind, try_except_Exception.
  rewrite H1. simpl. rewrite Hh, H2. simpl.
  replace (negb (User.is_verified u)
           && AuthConfig.require_email_verification (config self))
    with false
    by (destruct Hv as [-> | ->]; [reflexivity | apply eq_sym, andb_false_r]).
  rewrite H3, H4. reflexivity.
Qed.

(** Whatever the collaborators do, [refresh_access_token] returns a pair
    only for a string that decoded with kind [refresh] and that the token
    handler has then put on the blacklist. *)
Theorem refresh_access_token_returns_after_blacklisting refresh_token
    (w w' : W) tokens :
  refresh_access_token self refresh_token w = (Return tokens, w') ->
  exists token_data w1 w2,
    decode_token self refresh_token w = (Return token_data, w1)
    /\ TokenData.token_type token_data = "refresh"
    /\ TokenHandler.blacklist_token (token_handler self) refresh_token w1
       = (Return tt, w2).
Proof.
  intros H. unfold refresh_access_token in H.
  unfold mbind at 1, M_bind at 1 in H.
  destruct (decode_token self refresh_token w) as [[td|e] w1] eqn:E1;
    [|discriminate].
  destruct (String.eqb_spec (TokenData.token_type td) "refresh") as [Hk|Hk];
    simpl in H; [|discriminate].
  unfold mbind at 1, M_bind at 1 in H.
  destruct (TokenHandler.blacklist_token (token_handler self) refresh_token w1)
    as [[[]|e] w2] eqn:E2; [|discriminate].
  exists td, w1, w2. repeat split; assumption.
Qed.

(** Whatever the collaborators do, [request_password_reset] never ends
    with an [R2RException] of status 404. *)
Theorem request_password_reset_never_not_found email (w w' : W) r :
  request_password_reset self email w = (r, w') ->
  forall message, r <> Raise (R2RException 404 message).
Proof.
  unfold request_password_reset, try_except_R2RException.
  match goal with
  | |- context [match ?x with _ => _ end] => destruct x as [[a|e] w1]
  end; [intros [= <- _]; discriminate|].
  destruct e as [sc m| | | | | |]; try (intros [= <- _]; discriminate).
  destruct (Z.eqb_spec sc 404) as [->|Hne];
    [intros [= <- _]; discriminate|].
  unfold raise. intros [= <- _] message [= ->]. contradiction.
Qed.

(** A 404 raised after the lookup, by the reset token store or by the
    mailer, is taken for "user not found" as well: the caller gets the
    success message although no reset mail went out. *)
Theorem request_password_reset_hides_later_404 email (w w1 w2 : W) u reset_token :
  UsersHandler.get_user_by_email (users_handler self) email w
    = (Return (Some u), w1) ->
  CryptoProvider.generate_verification_code (crypto_provider self) w1
    = (Return reset_token, w2) ->
  (forall w3 message,
      UsersHandler.store_reset_token (users_handler self) (User.id u)
        reset_token (clock w2 + timedelta_hours 1) w2
        = (Raise (R2RException 404 message), w3) ->
      request_password_reset self email w = (Return reset_link_sent, w3))
  /\ (forall w3 w4 message,
      UsersHandler.store_reset_token (users_handler self) (User.id u)
        reset_token (clock w2 + timedelta_hours 1) w2 = (Return tt, w3) ->
      EmailProvider.send_password_reset_email (email_provider self) email
        reset_token (first_name_of (User.name u) email) w3
        = (Raise (R2RException 404 message), w4) ->
      request_password_reset self email w = (Return reset_link_sent, w4)).
Proof.
  intros H1 H2. split.
  - intros w3 message H3. unfold request_password_reset. run_method.
    rewrite H1. simpl. rewrite H2. simpl. rewrite H3. reflexivity.
  - intros w3 w4 message H3 H4. unfold request_password_reset. run_method.
    rewrite H1. simpl. rewrite H2. simpl. rewrite H3. simpl. rewrite H4.
    reflexivity.
Qed.

(** When the lookup returns no user object instead of raising,
    [request_password_reset] still draws a code, then ends with
    [AttributeError] where it reads the user's id, not with the success
    message. *)
Lemma request_password_reset_on_none email (w w1 w2 : W) reset_token :
  UsersHandler.get_user_by_email (users_handler self) email w
    = (Return None, w1) ->
  CryptoProvider.generate_verification_code (crypto_provider self) w1
    = (Return reset_token, w2) ->
  request_password_reset self email w = (Raise AttributeError, w2).
Proof.
  intros H1 H2. unfold request_password_reset. run_method.
  rewrite H1. simpl. rewrite H2. reflexivity.
Qed.

(** Whatever the collaborators do, [initialize] never ends with an
    [R2RException]: any such failure of [register] or of the superuser
    mark is taken for "admin already exists". *)
Theorem initialize_never_raises_R2RException (w w' : W) r :
  initialize self rest w = (r, w') ->
  forall status_code message, r <> Raise (R2RException status_code message).
Proof.
  unfold initialize, try_except_R2RException.
  match goal with
  | |- context [match ?x with _ => _ end] => destruct x as [[a|e] w1]
  end; [intros [= <- _]; discriminate|].
  destruct e; intros [= <- _]; discriminate.
Qed.

(** [change_password] changes nothing unless the cipher accepts the current
    password: a stored hash that is not a string fails at once with status
    500, a wrong current password fails with status 400 before the new
    password is hashed or stored, and a fault of the cipher reaches the
    caller as it is. *)
Theorem change_password_refusals u current_password new_password (w : W) :
  (User.hashed_password u = None ->
   change_password self rest u current_password new_password w
     = (Raise (HTTPException 500 "Invalid password hash in database"), w))
  /\ (forall hashed_password w1,
      User.hashed_password u = Some hashed_password ->
      CryptoProvider.verify_password (crypto_provider self) current_password
        hashed_password w = (Return false, w1) ->
      change_password self rest u current_password new_password w
        = (Raise (R2RException 400 "Incorrect current password"), w1))
  /\ (forall hashed_password w1 e,
      User.hashed_password u = Some hashed_password ->
      CryptoProvider.verify_password (crypto_provider self) current_password
        hashed_password w = (Raise e, w1) ->
      change_password self rest u current_password new_password w
        = (Raise e, w1)).
Proof.
  repeat apply conj.
  - intros Hh. unfold change_password. rewrite Hh. reflexivity.
  - intros hp w1 Hh H1. unfold change_password. run_method.
    rewrite Hh, H1. reflexivity.
  - intros hp w1 e Hh H1. unfold change_password. run_method.
    rewrite Hh, H1. reflexivity.
Qed.

(** Whatever the collaborators do, [change_password] returns only after
    the cipher has accepted the current password against the hash carried
    by the user object it was given, and what it stores for that user's id
    is the hash of the new password. *)
Theorem change_password_returns_after_check u current_password new_password
    (w w' : W) r :
  change_password self rest u current_password new_password w = (Return r, w') ->
  exists hashed_password hashed_new_password w1 w2,
    User.hashed_password u = Some hashed_password
    /\ CryptoProvider.verify_password (crypto_provider self) current_password
         hashed_password w = (Return true, w1)
    /\ CryptoProviderRest.get_password_hash (Rest.crypto_provider rest)
         new_password w1 = (Return hashed_new_password, w2)
    /\ UsersHandlerRest.update_user_password (Rest.users_handler rest)
         (User.id u) hashed_new_password w2 = (Return tt, w')
    /\ r = message_dict "Password changed successfully".
Proof.
  intros H. unfold change_password in H. unfold_run H.
  destruct (User.hashed_password u) as [hp|] eqn:Eh; [|discriminate].
  destruct (CryptoProvider.verify_password (crypto_provider self)
              current_password hp w) as [[[|]|e] w1] eqn:E1;
    simpl in H; try discriminate.
  destruct (CryptoProviderRest.get_password_hash (Rest.crypto_provider rest)
              new_password w1) as [[h|e] w2] eqn:E2; simpl in H;
    try discriminate.
  destruct (UsersHandlerRest.update_user_password (Rest.users_handler rest)
              (User.id u) h w2) as [[[]|e] w3] eqn:E3; simpl in H;
    try discriminate.
  injection H as <- <-. exists hp, h, w1, w2. repeat split; assumption.
Qed.

(** A fault of the cipher while it checks a password is wrapped by [login]
    into an [HTTPException] of status 500, and passed on as it is by
    [change_password]. *)
Theorem password_check_fault_wrapped_by_login_only email password new_password
    (w w1 w2 : W) u hashed_password e :
  UsersHandler.get_user_by_email (users_handler self) email w
    = (Return (Some u), w1) ->
  User.hashed_password u = Some hashed_password ->
  CryptoProvider.verify_password (crypto_provider self) password
    hashed_password w1 = (Raise e, w2) ->
  login self email password w
    = (Raise (HTTPException 500 "Error during password verification"), w2)
  /\ change_password self rest u password new_password w1 = (Raise e, w2).
Proof.
  intros H1 Hh H2. split.
  - unfold login. run_method. rewrite H1. simpl. rewrite Hh, H2. reflexivity.
  - unfold change_password. run_method. rewrite Hh, H2. reflexivity.
Qed.

(** [confirm_password_reset] with a token that resolves to no user fails
    with status 400 before the new password is hashed or stored; and when
    storing the new password fails, the reset token is not removed: the
    method stops in the world the failed update left. *)
Theorem confirm_password_reset_failures reset_token new_password (w w1 : W) :
  (UsersHandlerRest.get_user_id_by_reset_token (Rest.users_handler rest)
     reset_token w = (Return None, w1) ->
   confirm_password_reset rest reset_token new_password w
     = (Raise (R2RException 400 "Invalid or expired reset token"), w1))
  /\ (forall w2 w3 user_id hashed_new_password e,
      UsersHandlerRest.get_user_id_by_reset_token (Rest.users_handler rest)
        reset_token w = (Return (Some user_id), w1) ->
      CryptoProviderRest.get_password_hash (Rest.crypto_provider rest)
        new_password w1 = (Return hashed_new_password, w2) ->
      UsersHandlerRest.update_user_password (Rest.users_handler rest)
        user_id hashed_new_password w2 = (Raise e, w3) ->
      confirm_password_reset rest reset_token new_password w = (Raise e, w3)).
Proof.
  split.
  - intros H. unfold confirm_password_reset. run_method. rewrite H.
    reflexivity.
  - intros w2 w3 user_id h e H1 H2 H3. unfold confirm_password_reset.
    run_method. rewrite H1. simpl. rewrite H2. simpl. rewrite H3.
    reflexivity.
Qed.

(** Whatever the collaborators do, [confirm_password_reset] returns only
    when the token resolved to a user id, the hash of the new password was
    stored for that id, and the reset token of that id was removed after
    that. *)
Theorem confirm_password_reset_returns_after_update reset_token new_password
    (w w' : W) r :
  confirm_password_reset rest reset_token new_password w = (Return r, w') ->
  exists user_id hashed_new_password w1 w2 w3,
    UsersHandlerRest.get_user_id_by_reset_token (Rest.users_handler rest)
      reset_token w = (Return (Some user_id), w1)
    /\ CryptoProviderRest.get_password_hash (Rest.crypto_provider rest)
         new_password w1 = (Return hashed_new_password, w2)
    /\ UsersHandlerRest.update_user_password (Rest.users_handler rest)
         user_id hashed_new_password w2 = (Return tt, w3)
    /\ UsersHandlerRest.remove_reset_token (Rest.users_handler rest)
         user_id w3 = (Return tt, w')
    /\ r = message_dict "Password reset successfully".
Proof.
  intros H. unfold confirm_password_reset in H. unfold_run H.
  destruct (UsersHandlerRest.get_user_id_by_reset_token
              (Rest.users_handler rest) reset_token w)
    as [[[uid|]|e] w1] eqn:E1; simpl in H; try discriminate.
  destruct (CryptoProviderRest.get_password_hash (Rest.crypto_provider rest)
              new_password w1) as [[h|e] w2] eqn:E2; simpl in H;
    try discriminate.
  destruct (UsersHandlerRest.update_user_password (Rest.users_handler rest)
              uid h w2) as [[[]|e] w3] eqn:E3; simpl in H; try discriminate.
  destruct (UsersHandlerRest.remove_reset_token (Rest.users_handler rest)
              uid w3) as [[[]|e] w4] eqn:E4; simpl in H; try discriminate.
  injection H as <- <-. exists uid, h, w1, w2, w3. repeat split; assumption.
Qed.

(** Unlike [request_password_reset], [send_reset_email] tells whether the
    email is known: with no user object for it, it fails with status 404
    "User not found", where [request_password_reset], on that 404 from the
    lookup, returns its success message. *)
Theorem send_reset_email_reveals_unknown_email email (w w1 : W) :
  (UsersHandler.get_user_by_email (users_handler self) email w
     = (Return None, w1) ->
   send_reset_email self rest email w
     = (Raise (R2RException 404 "User not found"), w1))
  /\ (forall message,
      UsersHandler.get_user_by_email (users_handler self) email w
        = (Raise (R2RException 404 message), w1) ->
      send_reset_email self rest email w
        = (Raise (R2RException 404 message), w1)
      /\ request_password_reset self email w = (Return reset_link_sent, w1)).
Proof.
  split.
  - intros H. unfold send_reset_email. run_method. rewrite H. reflexivity.
  - intros message H. split.
    + unfold send_reset_email. run_method. rewrite H. reflexivity.
    + unfold request_password_reset. run_method. rewrite H. reflexivity.
Qed.

(** Whatever the collaborators do, the code that [send_reset_email] hands
    back to its caller is the one it stored for the user and mailed to the
    address, with the expiry it stored, 24 hours after the current time. *)
Theorem send_reset_email_returns_stored_code email (w w' : W) r :
  send_reset_email self rest email w = (Return r, w') ->
  exists u w1 w2 w3,
    UsersHandler.get_user_by_email (users_handler self) email w
      = (Return (Some u), w1)
    /\ CryptoProvider.generate_verification_code (crypto_provider self) w1
       = (Return (ResetEmail.verification_code r), w2)
    /\ ResetEmail.expiry r = (clock w2 + timedelta_hours 24)%Z
    /\ UsersHandlerRest.store_verification_code (Rest.users_handler rest)
         (User.id u) (ResetEmail.verification_code r) (ResetEmail.expiry r) w2
       = (Return tt, w3)
    /\ EmailProviderRest.send_verification_email (Rest.email_provider rest)
         email (ResetEmail.verification_code r)
         (first_name_of (User.name u) email) w3 = (Return tt, w')
    /\ ResetEmail.message r
       = "Verification email sent successfully to " ++ email.
Proof.
  intros H. unfold send_reset_email in H. unfold_run H.
  destruct (UsersHandler.get_user_by_email (users_handler self) email w)
    as [[[u|]|e] w1] eqn:E1; simpl in H; try discriminate.
  destruct (CryptoProvider.generate_verification_code (crypto_provider self) w1)
    as [[code|e] w2] eqn:E2; simpl in H; try discriminate.
  destruct (UsersHandlerRest.store_verification_code (Rest.users_handler rest)
              (User.id u) code (clock w2 + timedelta_hours 24) w2)
    as [[[]|e] w3] eqn:E3; simpl in H; try discriminate.
  destruct (EmailProviderRest.send_verification_email (Rest.email_provider rest)
              email code (first_name_of (User.name u) email) w3)
    as [[[]|e] w4] eqn:E4; simpl in H; try discriminate.
  injection H as <- <-. exists u, w1, w2, w3. simpl. repeat split; assumption.
Qed.

(** ** [register] *)

(** Whatever the collaborators do, where email verification is not
    required [register] returns the user object exactly as [create_user]
    made it, after storing the code [-1] for it with an expiry 3660 hours
    (152 days and a half) ahead and marking the user verified in the store;
    no code is drawn and no mail is sent. *)
Theorem register_without_verification email password is_superuser
    (w w' : W) account :
  AuthConfig.require_email_verification (config self) = false ->
  register self rest email password is_superuser w = (Return account, w') ->
  exists collection w1 w2 w3 w4 w5,
    UsersHandlerRest.create_user (Rest.users_handler rest)
      email password is_superuser w = (Return account, w1)
    /\ CollectionsHandler.create_collection (Rest.collections_handler rest)
         (User.id (Account.user account)) w1 = (Return collection, w2)
    /\ GraphsHandler.create (Rest.graphs_handler rest)
         (CollectionResponse.id collection) (CollectionResponse.name collection)
         (CollectionResponse.description collection) w2 = (Return tt, w3)
    /\ UsersHandlerRest.add_user_to_collection (Rest.users_handler rest)
         (User.id (Account.user account)) (CollectionResponse.id collection) w3
       = (Return tt, w4)
    /\ UsersHandlerRest.store_verification_code (Rest.users_handler rest)
         (User.id (Account.user account)) "-1"
         (clock w4 + timedelta_days 152 + timedelta_hours 12) w4
       = (Return tt, w5)
    /\ UsersHandler.mark_user_as_verified (users_handler self)
         (User.id (Account.user account)) w5 = (Return tt, w').
Proof.
  intros Hc H. unfold register in H. unfold_run H. rewrite Hc in H.
  destruct (UsersHandlerRest.create_user (Rest.users_handler rest)
              email password is_superuser w) as [[a|e] w1] eqn:E1;
    simpl in H; try discriminate.
  destruct (CollectionsHandler.create_collection (Rest.collections_handler rest)
              (User.id (Account.user a)) w1) as [[c|e] w2] eqn:E2;
    simpl in H; try discriminate.
  destruct (GraphsHandler.create (Rest.graphs_handler rest)
              (CollectionResponse.id c) (CollectionResponse.name c)
              (CollectionResponse.description c) w2) as [[[]|e] w3] eqn:E3;
    simpl in H; try discriminate.
  destruct (UsersHandlerRest.add_user_to_collection (Rest.users_handler rest)
              (User.id (Account.user a)) (CollectionResponse.id c) w3)
    as [[[]|e] w4] eqn:E4; simpl in H; try discriminate.
  destruct (UsersHandlerRest.store_verification_code (Rest.users_handler rest)
              (User.id (Account.user a)) "-1"
              (clock w4 + timedelta_hours (366 * 10)) w4)
    as [[[]|e] w5] eqn:E5; simpl in H; try discriminate.
  destruct (UsersHandler.mark_user_as_verified (users_handler self)
              (User.id (Account.user a)) w5) as [[[]|e] w6] eqn:E6;
    simpl in H; try discriminate.
  injection H as <- <-. exists c, w1, w2, w3, w4, w5.
  repeat split; try assumption.
  replace (clock w4 + timedelta_days 152 + timedelta_hours 12)%Z
    with (clock w4 + timedelta_hours (366 * 10))%Z
    by (unfold timedelta_days, timedelta_hours; lia).
  exact E5.
Qed.

(** Whatever the collaborators do, where email verification is required
    [register] returns the created user with [verification_code_expiry] set
    24 hours ahead, after storing one freshly drawn code for the user with
    that expiry and mailing that same code to the address of the created
    user; it does not mark the user verified. *)
Theorem register_with_verification email password is_superuser
    (w w' : W) account :
  AuthConfig.require_email_verification (config self) = true ->
  register self rest email password is_superuser w = (Return account, w') ->
  exists created collection verification_code w1 w2 w3 w4 w5 w6,
    UsersHandlerRest.create_user (Rest.users_handler rest)
      email password is_superuser w = (Return created, w1)
    /\ CollectionsHandler.create_collection (Rest.collections_handler rest)
         (User.id (Account.user created)) w1 = (Return collection, w2)
    /\ GraphsHandler.create (Rest.graphs_handler rest)
         (CollectionResponse.id collection) (CollectionResponse.name collection)
         (CollectionResponse.description collection) w2 = (Return tt, w3)
    /\ UsersHandlerRest.add_user_to_collection (Rest.users_handler rest)
         (User.id (Account.user created)) (CollectionResponse.id collection) w3
       = (Return tt, w4)
    /\ CryptoProvider.generate_verification_code (crypto_provider self) w4
       = (Return verification_code, w5)
    /\ UsersHandlerRest.store_verification_code (Rest.users_handler rest)
         (User.id (Account.user created)) verification_code
         (clock w5 + timedelta_hours 24) w5 = (Return tt, w6)
    /\ EmailProviderRest.send_verification_email (Rest.email_provider rest)
         (User.email (Account.user created)) verification_code
         (first_name_of (User.name (Account.user created)) email) w6
       = (Return tt, w')
    /\ account = Account.mk (Account.user created)
                   (Some (clock w5 + timedelta_hours 24)%Z).
Proof.
  intros Hc H. unfold register in H. unfold_run H. rewrite Hc in H.
  destruct (UsersHandlerRest.create_user (Rest.users_handler rest)
              email password is_superuser w) as [[a|e] w1] eqn:E1;
    simpl in H; try discriminate.
  destruct (CollectionsHandler.create_collection (Rest.collections_handler rest)
              (User.id (Account.user a)) w1) as [[c|e] w2] eqn:E2;
    simpl in H; try discriminate.
  destruct (GraphsHandler.create (Rest.graphs_handler rest)
              (CollectionResponse.id c) (CollectionResponse.name c)
              (CollectionResponse.description c) w2) as [[[]|e] w3] eqn:E3;
    simpl in H; try discriminate.
  destruct (UsersHandlerRest.add_user_to_collection (Rest.users_handler rest)
              (User.id (Account.user a)) (CollectionResponse.id c) w3)
    as [[[]|e] w4] eqn:E4; simpl in H; try discriminate.
  destruct (CryptoProvider.generate_verification_code (crypto_provider self) w4)
    as [[code|e] w5] eqn:E5; simpl in H; try discriminate.
  destruct (UsersHandlerRest.store_verification_code (Rest.users_handler rest)
              (User.id (Account.user a)) code
              (clock w5 + timedelta_hours 24) w5)
    as [[[]|e] w6] eqn:E6; simpl in H; try discriminate.
  destruct (EmailProviderRest.send_verification_email (Rest.email_provider rest)
              (User.email (Account.user a)) code
              (first_name_of (User.name (Account.user a)) email) w6)
    as [[[]|e] w7] eqn:E7; simpl in H; try discriminate.
  injection H as <- <-. exists a, c, code, w1, w2, w3, w4, w5, w6.
  repeat split; assumption.
Qed.

(** [register] undoes nothing: when the verification mail cannot be sent,
    it fails with the mailer's exception in the world where the user has
    been created and the code stored, and returns no user object. *)
Theorem register_mail_failure_leaves_user email password is_superuser
    (w w1 w2 w3 w4 w5 w6 w7 : W) created collection verification_code e :
  AuthConfig.require_email_verification (config self) = true ->
  UsersHandlerRest.create_user (Rest.users_handler rest)
    email password is_superuser w = (Return created, w1) ->
  CollectionsHandler.create_collection (Rest.collections_handler rest)
    (User.id (Account.user created)) w1 = (Return collection, w2) ->
  GraphsHandler.create (Rest.graphs_handler rest)
    (CollectionResponse.id collection) (CollectionResponse.name collection)
    (CollectionResponse.description collection) w2 = (Return tt, w3) ->
  UsersHandlerRest.add_user_to_collection (Rest.users_handler rest)
    (User.id (Account.user created)) (CollectionResponse.id collection) w3
    = (Return tt, w4) ->
  CryptoProvider.generate_verification_code (crypto_provider self) w4
    = (Return verification_code, w5) ->
  UsersHandlerRest.store_verification_code (Rest.users_handler rest)
    (User.id (Account.user created)) verification_code
    (clock w5 + timedelta_hours 24) w5 = (Return tt, w6) ->
  EmailProviderRest.send_verification_email (Rest.email_provider rest)
    (User.email (Account.user created)) verification_code
    (first_name_of (User.name (Account.user created)) email) w6
    = (Raise e, w7) ->
  register self rest email password is_superuser w = (Raise e, w7).
Proof.
  intros Hc H1 H2 H3 H4 H5 H6 H7. unfold register. run_method.
  rewrite H1. simpl. rewrite H2. simpl. rewrite H3. simpl. rewrite H4. simpl.
  rewrite Hc, H5. simpl. rewrite H6. simpl. rewrite H7. reflexivity.
Qed.

(** ** API keys, from issue to use *)

(** The key that [create_user_api_key] returns is accepted by
    [authenticate_api_key] for the owner, provided the public id holds no
    [.], the store gives back the record it was handed, the cipher accepts
    the raw key against the hash it made of it, and the owner is active. *)
Theorem api_key_round_trip user_id name (w w' : W) key_id raw_api_key
    hashed_key api_key_uuid (w1 w2 v v1 v2 v3 : W) u :
  CryptoProviderRest.generate_api_key (Rest.crypto_provider rest) w
    = (Return (key_id, raw_api_key), w1) ->
  CryptoProviderRest.hash_api_key (Rest.crypto_provider rest) raw_api_key w1
    = (Return hashed_key, w2) ->
  UsersHandlerRest.store_user_api_key (Rest.users_handler rest)
    user_id key_id hashed_key name w2 = (Return api_key_uuid, w') ->
  occurs "." key_id = false ->
  UsersHandler.get_api_key_record (users_handler self) key_id v
    = (Return (Some (ApiKeyRecord.mk hashed_key user_id)), v1) ->
  CryptoProvider.verify_api_key (crypto_provider self) raw_api_key hashed_key v1
    = (Return true, v2) ->
  UsersHandler.get_user_by_id (users_handler self) user_id v2 = (Return u, v3) ->
  User.is_active u = true ->
  exists api_key,
    create_user_api_key rest user_id name w
      = (Return [("api_key", api_key);
                 ("key_id", Rest.str_uuid rest api_key_uuid);
                 ("public_key", key_id);
                 ("name", or_empty name)], w')
    /\ authenticate_api_key self api_key v = (Return u, v3).
Proof.
  intros H1 H2 H3 Hk H4 H5 H6 Ha.
  exists (key_id ++ String "." raw_api_key). split.
  - unfold create_user_api_key. run_method.
    rewrite H1. simpl. rewrite H2. simpl. rewrite H3. reflexivity.
  - rewrite (authenticate_api_key_split self _ _ _ Hk). run_method.
    rewrite H4. simpl. rewrite H5. simpl. rewrite H6, Ha. reflexivity.
Qed.

(** A public id that holds a [.] breaks that round trip:
    [authenticate_api_key] looks up only what precedes the first [.] of the
    key, and fails with InvalidKey when no record goes by that. *)
Theorem api_key_with_dotted_id_is_refused head tail raw_api_key (v v1 : W) :
  occurs "." head = false ->
  UsersHandler.get_api_key_record (users_handler self) head v
    = (Return None, v1) ->
  authenticate_api_key self
    ((head ++ String "." tail) ++ String "." raw_api_key) v
    = (Raise InvalidKey, v1).
Proof.
  intros Hh H1.
  rewrite app_assoc_string.
  change (String "." tail ++ String "." raw_api_key)
    with (String "." (tail ++ String "." raw_api_key)).
  rewrite (authenticate_api_key_split self _ _ _ Hh). run_method.
  rewrite H1. reflexivity.
Qed.

End Outcomes.

(** * The further properties on the sample deployment *)

Ltac by_running := vm_compute; reflexivity.

Lemma removeprefix_strips_witness :
  removeprefix "Bearer " "Bearer pk_alice.sk_alice" = "pk_alice.sk_alice"
  /\ removeprefix "Bearer " "bearer pk_alice.sk_alice" = "bearer pk_alice.sk_alice".
Proof.
  split.
  - exact (proj1 (removeprefix_strips "Bearer " "pk_alice.sk_alice")).
  - apply (proj2 (removeprefix_strips "Bearer " "")). by_running.
Defined.

Lemma decode_token_returns_live_witness :
  decode_token Sample.auth "jwt.access.ghost" Sample.world
    = (Return (TokenData.mk "ghost@x.com" "access" 5000), Sample.world)
  /\ (clock Sample.world <= 5000)%Z.
Proof.
  split; [by_running|].
  refine (proj2 (decode_token_returns_live Sample.auth "jwt.access.ghost"
                   Sample.world Sample.world
                   (TokenData.mk "ghost@x.com" "access" 5000) _)).
  by_running.
Defined.

Lemma authenticate_api_key_returns_active_witness :
  User.is_active Sample.alice = true /\ occurs "." "pk_alice.sk_alice" = true.
Proof.
  refine (authenticate_api_key_returns_active Sample.auth "pk_alice.sk_alice"
            Sample.world Sample.world Sample.alice _).
  by_running.
Defined.

Lemma user_failure_comes_from_api_key_witness :
  exists w1,
    authenticate_api_key Sample.auth "jwt.access.ghost" w1
      = (Raise (R2RException 401 "Invalid API key"), Sample.world).
Proof.
  refine (user_failure_comes_from_api_key Sample.auth "jwt.access.ghost"
            Sample.world Sample.world 401 "Invalid API key" _).
  by_running.
Defined.

Lemma user_lets_other_faults_through_witness :
  user Sample2.auth_blacklist_down "pk_alice.sk_alice" Sample.world
    = (Raise (Exception "ConnectionError"), Sample.world).
Proof.
  apply user_lets_other_faults_through; [by_running | discriminate].
Defined.

Lemma user_by_token_skips_activity_check_witness :
  user Sample.auth "jwt.access.alice" Sample2.world_suspended
    = (Return (User.mk 1%positive "alice@x.com" false true false
                 (Some "h(pw1)") (Some "Alice A")),
       Sample2.world_suspended)
  /\ get_current_active_user
       (User.mk 1%positive "alice@x.com" false true false
          (Some "h(pw1)") (Some "Alice A"))
     = Raise (R2RException 400 "Inactive user").
Proof.
  destruct (user_by_token_skips_activity_check Sample.auth "jwt.access.alice"
              Sample2.world_suspended Sample2.world_suspended
              Sample2.world_suspended
              (TokenData.mk "alice@x.com" "access" 1000)
              (User.mk 1%positive "alice@x.com" false true false
                 (Some "h(pw1)") (Some "Alice A")))
    as [H1 H2]; [by_running | by_running | by_running |].
  split; [exact H1 | apply H2; reflexivity].
Defined.

Lemma api_key_user_passes_activity_check_witness :
  get_current_active_user Sample.alice = Return Sample.alice.
Proof.
  refine (api_key_user_passes_activity_check Sample.auth "pk_alice.sk_alice"
            Sample.world Sample.world Sample.alice _).
  by_running.
Defined.

Lemma login_returns_after_password_check_witness :
  exists u hashed_password w1 w2,
    UsersHandler.get_user_by_email (users_handler Sample.auth) "alice@x.com"
      Sample.world = (Return (Some u), w1)
    /\ User.hashed_password u = Some hashed_password
    /\ CryptoProvider.verify_password (crypto_provider Sample.auth) "pw1"
         hashed_password w1 = (Return true, w2)
    /\ (User.is_verified u = true
        \/ AuthConfig.require_email_verification (config Sample.auth) = false).
Proof.
  refine (login_returns_after_password_check Sample.auth "alice@x.com" "pw1"
            Sample.world Sample.world
            (token_dict "jwt.access.new" "jwt.refresh.new") _).
  by_running.
Defined.

Lemma login_ignores_activity_witness :
  User.is_active Sample.bob = false
  /\ login Sample.auth "bob@x.com" "pw2" Sample.world
     = (Return (token_dict "jwt.access.new" "jwt.refresh.new"), Sample.world).
Proof.
  split; [reflexivity|].
  apply (login_ignores_activity Sample.auth "bob@x.com" "pw2"
           Sample.world Sample.world Sample.world Sample.world Sample.world
           Sample.bob "h(pw2)");
    [by_running | by_running | by_running | left; reflexivity
     | by_running | by_running].
Defined.

Lemma refresh_access_token_returns_after_blacklisting_witness :
  exists token_data w1 w2,
    decode_token Sample.auth "jwt.refresh.alice" Sample.world
      = (Return token_data, w1)
    /\ TokenData.token_type token_data = "refresh"
    /\ TokenHandler.blacklist_token (token_handler Sample.auth)
         "jwt.refresh.alice" w1 = (Return tt, w2).
Proof.
  refine (refresh_access_token_returns_after_blacklisting Sample.auth
            "jwt.refresh.alice" Sample.world
            (after (refresh_access_token Sample.auth "jwt.refresh.alice")
                   Sample.world)
            (token_dict "jwt.access.new" "jwt.refresh.new") _).
  by_running.
Defined.

Lemma refresh_access_token_blacklist_fault_witness :
  refresh_access_token Sample2.auth_blacklist_read_only "jwt.refresh.alice"
    Sample.world
  = (Raise (Exception "ReadOnlySqlTransaction"), Sample.world).
Proof.
  apply (refresh_access_token_blacklist_fault Sample2.auth_blacklist_read_only
           "jwt.refresh.alice" Sample.world Sample.world Sample.world
           (TokenData.mk "alice@x.com" "refresh" 5000));
    by_running.
Defined.

Lemma request_password_reset_hides_later_404_witness :
  fst (request_password_reset Sample2.auth_mail_404 "alice@x.com" Sample.world)
    = Return reset_link_sent
  /\ Model.outbox
       (state (after (request_password_reset Sample2.auth_mail_404 "alice@x.com")
                     Sample.world)) = [].
Proof.
  split; [|by_running].
  destruct (request_password_reset_hides_later_404 Sample2.auth_mail_404
              "alice@x.com" Sample.world Sample.world
              (after (CryptoProvider.generate_verification_code
                        (crypto_provider Sample2.auth_mail_404)) Sample.world)
              Sample.alice "otc-0")
    as [_ H]; [by_running | by_running |].
  erewrite H; [reflexivity | by_running | by_running].
Defined.

Lemma change_password_refusals_witness :
  change_password Sample.auth Sample2.rest Sample.dave "pw4" "new" Sample.world
    = (Raise (HTTPException 500 "Invalid password hash in database"),
       Sample.world)
  /\ change_password Sample.auth Sample2.rest Sample.alice "guess" "new"
       Sample.world
     = (Raise (R2RException 400 "Incorrect current password"), Sample.world)
  /\ change_password Sample.auth Sample2.rest Sample.erin "pw5" "new"
       Sample.world
     = (Raise (Exception "UnknownHashError"), Sample.world).
Proof.
  repeat apply conj.
  - apply (proj1 (change_password_refusals Sample.auth Sample2.rest
                    Sample.dave "pw4" "new" Sample.world)).
    reflexivity.
  - destruct (change_password_refusals Sample.auth Sample2.rest
                Sample.alice "guess" "new" Sample.world) as (_ & H & _).
    apply (H "h(pw1)"); by_running.
  - destruct (change_password_refusals Sample.auth Sample2.rest
                Sample.erin "pw5" "new" Sample.world) as (_ & _ & H).
    apply (H "corrupt"); by_running.
Defined.

Lemma change_password_returns_after_check_witness :
  exists hashed_password hashed_new_password w1 w2,
    User.hashed_password Sample.alice = Some hashed_password
    /\ CryptoProvider.verify_password (crypto_provider Sample.auth) "pw1"
         hashed_password Sample.world = (Return true, w1)
    /\ CryptoProviderRest.get_password_hash (Rest.crypto_provider Sample2.rest)
         "new" w1 = (Return hashed_new_password, w2)
    /\ UsersHandlerRest.update_user_password (Rest.users_handler Sample2.rest)
         (User.id Sample.alice) hashed_new_password w2
       = (Return tt,
          after (change_password Sample.auth Sample2.rest Sample.alice
                   "pw1" "new") Sample.world)
    /\ message_dict "Password changed successfully"
       = message_dict "Password changed successfully".
Proof.
  refine (change_password_returns_after_check Sample.auth Sample2.rest
            Sample.alice "pw1" "new" Sample.world _ _ _).
  by_running.
Defined.

Lemma password_check_fault_wrapped_by_login_only_witness :
  login Sample.auth "erin@x.com" "pw5" Sample.world
    = (Raise (HTTPException 500 "Error during password verification"),
       Sample.world)
  /\ change_password Sample.auth Sample2.rest Sample.erin "pw5" "new"
       Sample.world
     = (Raise (Exception "UnknownHashError"), Sample.world).
Proof.
  apply (password_check_fault_wrapped_by_login_only Sample.auth Sample2.rest
           "erin@x.com" "pw5" "new" Sample.world Sample.world Sample.world
           Sample.erin "corrupt");
    by_running.
Defined.

Lemma confirm_password_reset_failures_witness :
  confirm_password_reset Sample2.rest "otc-9" "new" Sample2.world_reset
    = (Raise (R2RException 400 "Invalid or expired reset token"),
       Sample2.world_reset)
  /\ confirm_password_reset Sample2.rest_read_only "otc-0" "new"
       Sample2.world_reset
     = (Raise (Exception "ReadOnlySqlTransaction"), Sample2.world_reset).
Proof.
  split.
  - apply (proj1 (confirm_password_reset_failures Sample2.rest "otc-9" "new"
                    Sample2.world_reset Sample2.world_reset)).
    by_running.
  - apply (proj2 (confirm_password_reset_failures Sample2.rest_read_only
                    "otc-0" "new" Sample2.world_reset Sample2.world_reset)
             Sample2.world_reset Sample2.world_reset 1%positive "h(new)");
      by_running.
Defined.

Lemma confirm_password_reset_returns_after_update_witness :
  exists user_id hashed_new_password w1 w2 w3,
    UsersHandlerRest.get_user_id_by_reset_token (Rest.users_handler Sample2.rest)
      "otc-0" Sample2.world_reset = (Return (Some user_id), w1)
    /\ CryptoProviderRest.get_password_hash (Rest.crypto_provider Sample2.rest)
         "new" w1 = (Return hashed_new_password, w2)
    /\ UsersHandlerRest.update_user_password (Rest.users_handler Sample2.rest)
         user_id hashed_new_password w2 = (Return tt, w3)
    /\ UsersHandlerRest.remove_reset_token (Rest.users_handler Sample2.rest)
         user_id w3
       = (Return tt,
          after (confirm_password_reset Sample2.rest "otc-0" "new")
                Sample2.world_reset)
    /\ message_dict "Password reset successfully"
       = message_dict "Password reset successfully".
Proof.
  refine (confirm_password_reset_returns_after_update Sample2.rest
            "otc-0" "new" Sample2.world_reset _ _ _).
  by_running.
Defined.

Lemma send_reset_email_reveals_unknown_email_witness :
  send_reset_email Sample2.auth_lookup_none Sample2.rest "nobody@x.com"
    Sample.world
    = (Raise (R2RException 404 "User not found"), Sample.world)
  /\ send_reset_email Sample.auth Sample2.rest "nobody@x.com" Sample.world
     = (Raise (R2RException 404 "User not found"), Sample.world)
  /\ request_password_reset Sample.auth "nobody@x.com" Sample.world
     = (Return reset_link_sent, Sample.world).
Proof.
  split.
  - apply (proj1 (send_reset_email_reveals_unknown_email
                    Sample2.auth_lookup_none Sample2.rest "nobody@x.com"
                    Sample.world Sample.world)).
    by_running.
  - apply (proj2 (send_reset_email_reveals_unknown_email
                    Sample.auth Sample2.rest "nobody@x.com"
                    Sample.world Sample.world)).
    by_running.
Defined.

Lemma send_reset_email_returns_stored_code_witness :
  exists u w1 w2 w3,
    UsersHandler.get_user_by_email (users_handler Sample.auth) "alice@x.com"
      Sample.world = (Return (Some u), w1)
    /\ CryptoProvider.generate_verification_code (crypto_provider Sample.auth) w1
       = (Return "otc-0", w2)
    /\ (1000 + timedelta_hours 24)%Z = (clock w2 + timedelta_hours 24)%Z
    /\ UsersHandlerRest.store_verification_code (Rest.users_handler Sample2.rest)
         (User.id u) "otc-0" (1000 + timedelta_hours 24) w2 = (Return tt, w3)
    /\ EmailProviderRest.send_verification_email
         (Rest.email_provider Sample2.rest) "alice@x.com" "otc-0"
         (first_name_of (User.name u) "alice@x.com") w3
       = (Return tt,
          after (send_reset_email Sample.auth Sample2.rest "alice@x.com")
                Sample.world)
    /\ "Verification email sent successfully to alice@x.com"
       = "Verification email sent successfully to " ++ "alice@x.com".
Proof.
  refine (send_reset_email_returns_stored_code Sample.auth Sample2.rest
            "alice@x.com" Sample.world _
            (ResetEmail.mk "otc-0" (1000 + timedelta_hours 24)
               "Verification email sent successfully to alice@x.com") _).
  by_running.
Defined.

Lemma register_without_verification_witness :
  fst (register Sample2.auth_open Sample2.rest "zoe@x.com" "pwz" false
         Sample.world) = Return (Account.mk Sample2.zoe None)
  /\ exists w4 w5 : World Model.t,
      UsersHandlerRest.store_verification_code
        (Rest.users_handler Sample2.rest) 6%positive "-1"
        (clock w4 + timedelta_days 152 + timedelta_hours 12) w4
      = (Return tt, w5).
Proof.
  split; [by_running|].
  assert (H : register Sample2.auth_open Sample2.rest "zoe@x.com" "pwz" false
                Sample.world
              = (Return (Account.mk Sample2.zoe None),
                 after (register Sample2.auth_open Sample2.rest "zoe@x.com"
                          "pwz" false) Sample.world))
    by by_running.
  destruct (register_without_verification Sample2.auth_open Sample2.rest
              "zoe@x.com" "pwz" false Sample.world _ _ eq_refl H)
    as (c & w1 & w2 & w3 & w4 & w5 & _ & _ & _ & _ & H5 & _).
  exists w4, w5. exact H5.
Defined.

Lemma register_with_verification_witness :
  fst (register Sample.auth Sample2.rest "zoe@x.com" "pwz" false Sample.world)
    = Return (Account.mk Sample2.zoe (Some (1000 + timedelta_hours 24)%Z))
  /\ exists created verification_code (w5 : World Model.t),
      Account.mk Sample2.zoe (Some (1000 + timedelta_hours 24)%Z)
        = Account.mk (Account.user created)
            (Some (clock w5 + timedelta_hours 24)%Z)
      /\ exists w6 w7 : World Model.t,
          EmailProviderRest.send_verification_email
            (Rest.email_provider Sample2.rest)
            (User.email (Account.user created)) verification_code
            (first_name_of (User.name (Account.user created)) "zoe@x.com") w6
          = (Return tt, w7).
Proof.
  split; [by_running|].
  assert (H : register Sample.auth Sample2.rest "zoe@x.com" "pwz" false
                Sample.world
              = (Return (Account.mk Sample2.zoe (Some (1000 + timedelta_hours 24)%Z)),
                 after (register Sample.auth Sample2.rest "zoe@x.com"
                          "pwz" false) Sample.world))
    by by_running.
  destruct (register_with_verification Sample.auth Sample2.rest
              "zoe@x.com" "pwz" false Sample.world _ _ eq_refl H)
    as (a & c & code & w1 & w2 & w3 & w4 & w5 & w6
        & _ & _ & _ & _ & _ & _ & H7 & H8).
  exists a, code, w5. split; [exact H8|]. eauto.
Defined.

Lemma register_mail_failure_leaves_user_witness :
  fst (register Sample.auth Sample2.rest_mail_down "zoe@x.com" "pwz" false
         Sample.world) = Raise (Exception "SMTPException")
  /\ List.map User.email
       (Model.users
          (state (after (register Sample.auth Sample2.rest_mail_down
                           "zoe@x.com" "pwz" false) Sample.world)))
     = ["alice@x.com"; "bob@x.com"; "carol@x.com"; "dave@x.com"; "erin@x.com";
        "zoe@x.com"].
Proof.
  split; [|by_running].
  pose (w1 := after (UsersHandlerRest.create_user
                       (Rest.users_handler Sample2.rest_mail_down)
                       "zoe@x.com" "pwz" false) Sample.world).
  pose (w5 := after (CryptoProvider.generate_verification_code
                       (crypto_provider Sample.auth)) w1).
  pose (w6 := after (UsersHandlerRest.store_verification_code
                       (Rest.users_handler Sample2.rest_mail_down)
                       6%positive "otc-0" (1000 + timedelta_hours 24)) w5).
  rewrite (register_mail_failure_leaves_user Sample.auth
             Sample2.rest_mail_down "zoe@x.com" "pwz" false
             Sample.world w1 w1 w1 w1 w5 w6 w6
             (Account.mk Sample2.zoe None)
             (CollectionResponse.mk 6%positive "Default" None)
             "otc-0" (Exception "SMTPException"));
    [reflexivity | by_running ..].
Defined.

Lemma api_key_round_trip_witness :
  exists api_key,
    create_user_api_key Sample2.rest 1%positive (Some "ci") Sample.world
      = (Return [("api_key", api_key);
                 ("key_id", Rest.str_uuid Sample2.rest 3%positive);
                 ("public_key", "pk_new");
                 ("name", "ci")],
         after (create_user_api_key Sample2.rest 1%positive (Some "ci"))
               Sample.world)
    /\ authenticate_api_key Sample.auth api_key
         (after (create_user_api_key Sample2.rest 1%positive (Some "ci"))
                Sample.world)
       = (Return Sample.alice,
          after (create_user_api_key Sample2.rest 1%positive (Some "ci"))
                Sample.world).
Proof.
  pose (w' := after (create_user_api_key Sample2.rest 1%positive (Some "ci"))
                    Sample.world).
  pose (w1 := after (CryptoProviderRest.generate_api_key
                       (Rest.crypto_provider Sample2.rest)) Sample.world).
  apply (api_key_round_trip Sample.auth Sample2.rest 1%positive (Some "ci")
           Sample.world w' "pk_new" "sk_new" "h(sk_new)" 3%positive
           w1 w1 w' w' w' w' Sample.alice);
    by_running.
Defined.

Lemma api_key_with_dotted_id_is_refused_witness :
  authenticate_api_key Sample.auth "pk.alice.sk_alice" Sample.world
    = (Raise InvalidKey, Sample.world).
Proof.
  apply (api_key_with_dotted_id_is_refused Sample.auth "pk" "alice" "sk_alice"
           Sample.world Sample.world);
    by_running.
Defined.

Lemma request_password_reset_never_not_found_witness :
  fst (request_password_reset Sample.auth "nobody@x.com" Sample.world)
    = Return reset_link_sent
  /\ fst (request_password_reset Sample.auth "nobody@x.com" Sample.world)
     <> Raise (R2RException 404 "User not found").
Proof.
  split; [by_running|].
  refine (request_password_reset_never_not_found Sample.auth "nobody@x.com"
            Sample.world
            (after (request_password_reset Sample.auth "nobody@x.com")
                   Sample.world) _ _ "User not found").
  by_running.
Defined.

Lemma initialize_never_raises_R2RException_witness :
  fst (register Sample.auth Sample2.rest "admin@x.com" "change_me" true
         (after (initialize Sample.auth Sample2.rest) Sample.world))
    = Raise ModelRest.AlreadyExists
  /\ fst (initialize Sample.auth Sample2.rest
            (after (initialize Sample.auth Sample2.rest) Sample.world))
     = Return tt
  /\ fst (initialize Sample.auth Sample2.rest
            (after (initialize Sample.auth Sample2.rest) Sample.world))
     <> Raise ModelRest.AlreadyExists.
Proof.
  split; [by_running|]. split; [by_running|].
  refine (initialize_never_raises_R2RException Sample.auth Sample2.rest
            (after (initialize Sample.auth Sample2.rest) Sample.world)
            (after (initialize Sample.auth Sample2.rest)
               (after (initialize Sample.auth Sample2.rest) Sample.world))
            _ _ 400%Z "User with this email already exists").
  by_running.
Defined.

(** [verify_email] never looks at the email it is given: the code alone
    decides which user is marked verified. *)
Theorem verify_email_ignores_email {S} (self : R2RAuthProvider S)
    email email' verification_code (w : World S) :
  verify_email self email verification_code w
  = verify_email self email' verification_code w.
Proof. unfold verify_email. reflexivity. Qed.

(** An expiry that lies outside the years 1 to 9999 cannot be made an
    instant: [decode_token] fails with what [datetime.fromtimestamp] raises
    ([ValueError], [OSError] or [OverflowError]) before it compares anything
    with the clock, and [user] passes that failure on without trying the
    string as an API key. *)
Theorem decode_token_unrepresentable_expiry {S} (self : R2RAuthProvider S)
    token (w w1 w2 : World S) email token_type exp :
  TokenHandler.is_token_blacklisted (token_handler self) token w
    = (Return false, w1) ->
  CryptoProvider.verify_secure_token (crypto_provider self) token w1
    = (Return (Some (Payload.mk (Some email) (Some token_type) (Some exp))), w2) ->
  in_datetime_range exp = false ->
  exists e,
    (e = ValueError \/ e = OSError \/ e = OverflowError)
    /\ fromtimestamp exp = Raise e
    /\ decode_token self token w = (Raise e, w2)
    /\ user self token w = (Raise e, w2).
Proof.
  intros H1 H2 Hr.
  destruct (fromtimestamp exp) as [d|e] eqn:Hd.
  - apply fromtimestamp_value in Hd as [_ Hd]. congruence.
  - assert (He := fromtimestamp_fault _ _ Hd).
    assert (Hdec : decode_token self token w = (Raise e, w2)).
    { rewrite (decode_token_claims self _ _ _ _ _ _ _ H1 H2), Hd. reflexivity. }
    exists e. repeat split; try assumption.
    unfold user, try_except_R2RException, mbind, M_bind. rewrite Hdec.
    destruct He as [->|[->| ->]]; reflexivity.
Qed.

Lemma decode_token_unrepresentable_expiry_witness :
  fromtimestamp 1700000000000000000 = Raise ValueError
  /\ exists e,
      (e = ValueError \/ e = OSError \/ e = OverflowError)
      /\ fromtimestamp 1700000000000000000 = Raise e
      /\ decode_token Sample2.auth_ms "jwt.access.ms" Sample.world
         = (Raise e, Sample.world)
      /\ user Sample2.auth_ms "jwt.access.ms" Sample.world
         = (Raise e, Sample.world).
Proof.
  split; [by_running|].
  apply (decode_token_unrepresentable_expiry Sample2.auth_ms "jwt.access.ms"
           Sample.world Sample.world Sample.world "alice@x.com" "access"
           1700000000000000000);
    by_running.
Defined.
